(** * The metric objects of the sim app (markov/metrics/s3_metrics.py)

    A shallow embedding of [TrainingMetrics] and [EvalMetrics] and the
    properties of their episode aggregation, reset counters, video snapshot
    and best-checkpoint selection.

    Conventions of the embedding:
    - Python floats and ints are exact rationals ([Q]); [int(x)] and
      [round(x)] are written out below.
    - [time.time()] is an explicit argument of every method that calls it.
    - A method is a state transformer that may raise: it returns the object's
      state as it stands when the method returns or raises, together with the
      result or the exception.
    - The S3 client, CloudWatch logger and local trace file are append-only
      logs held in the object's state. *)

From Stdlib Require Import ZArith QArith Qround List String Bool Lia.
Import ListNotations.

Set Implicit Arguments.

(** ** Python numbers *)

(** [int(x)] on a float: truncation toward zero. *)
Definition py_int (x : Q) : Z := Z.quot (Qnum x) (Zpos (Qden x)).

(** [round(x)] on a float: the nearest integer, halves to the even one. *)
Definition py_round (x : Q) : Z :=
  let f := Qfloor x in
  match Qcompare (x - inject_Z f) (1 # 2) with
  | Lt => f
  | Gt => (f + 1)%Z
  | Eq => if Z.even f then f else (f + 1)%Z
  end.

(** [int(round(t * 1000))]: a time in seconds as whole milliseconds. *)
Definition millis (t : Q) : Z := py_round (t * 1000).

(** ** Exceptions and the method monad *)

(** The fields of a step record, [StepMetrics] of markov.metrics.constants,
    as far as this module names them. *)
Inductive StepMetrics : Type :=
| EPISODE | X | Y | STEER | REWARD | DONE | PROG | EPISODE_STATUS.

Inductive Exn : Type :=
| KeyError (k : StepMetrics)
| TypeError
| MalformedRecord
| StatisticsError
| CheckpointUnavailable
| ZeroDivisionError.

Definition M (S A : Type) : Type := S -> S * (Exn + A).

Definition ret {S A} (a : A) : M S A := fun s => (s, inr a).

Definition bind {S A B} (c : M S A) (k : A -> M S B) : M S B :=
  fun s =>
    match c s with
    | (s', inl e) => (s', inl e)
    | (s', inr a) => k a s'
    end.

Definition raise {S A} (e : Exn) : M S A := fun s => (s, inl e).

Definition get {S} : M S S := fun s => (s, inr s).

Definition modify {S} (f : S -> S) : M S unit := fun s => (f s, inr tt).

(** A pure computation that may raise, run inside a method. *)
Definition lift {S A} (r : Exn + A) : M S A := fun s => (s, r).

Declare Scope method_scope.
Delimit Scope method_scope with method.
Notation "x <- c ;; k" := (bind c (fun x => k))
  (at level 61, c at next level, right associativity) : method_scope.
Notation "c ;; k" := (bind c (fun _ => k))
  (at level 61, right associativity) : method_scope.

(** The state a call leaves behind, and what it returned or raised. *)
Definition state_after {S A} (r : S * (Exn + A)) : S := fst r.
Definition outcome {S A} (r : S * (Exn + A)) : Exn + A := snd r.


(** ** Step records *)

(** [EpisodeStatus] members whose values key [reset_count_dict]. *)
Inductive EpisodeStatus : Type :=
| CRASHED | OFF_TRACK | IMMOBILIZED | REVERSED.

(** A value held by a step record. [VStr] is any string that is not the value
    of one of the four reset statuses. *)
Inductive Value : Type :=
| VNum (x : Q)
| VBool (b : bool)
| VStatus (e : EpisodeStatus)
| VStr (s : string).

Definition StepMetrics_eqb (a b : StepMetrics) : bool :=
  match a, b with
  | EPISODE, EPISODE | X, X | Y, Y | STEER, STEER | REWARD, REWARD
  | DONE, DONE | PROG, PROG | EPISODE_STATUS, EPISODE_STATUS => true
  | _, _ => false
  end.

(** A Python dict as the list of its items, keys in insertion order. *)
Section Dict.

Variables (K V : Type) (eqb : K -> K -> bool).

Fixpoint dict_get (k : K) (d : list (K * V)) : option V :=
  match d with
  | [] => None
  | (k', v) :: d' => if eqb k k' then Some v else dict_get k d'
  end.

(** [d[k] = v]: overwrite in place, or append a new key. *)
Fixpoint dict_set (k : K) (v : V) (d : list (K * V)) : list (K * V) :=
  match d with
  | [] => [(k, v)]
  | (k', v') :: d' =>
      if eqb k k' then (k, v) :: d' else (k', v') :: dict_set k v d'
  end.

End Dict.

(** The step record, an [OrderedDict]. *)
Definition StepDict : Type := list (StepMetrics * Value).

Definition step_get (k : StepMetrics) (d : StepDict) : option Value :=
  dict_get StepMetrics_eqb k d.

Definition step_set (k : StepMetrics) (v : Value) (d : StepDict) : StepDict :=
  dict_set StepMetrics_eqb k v d.

(** [metrics[k]]: [KeyError] when the key is absent. *)
Definition getitem (k : StepMetrics) (d : StepDict) : Exn + Value :=
  match step_get k d with
  | Some v => inr v
  | None => inl (KeyError k)
  end.

(** [metrics[k]] for a field the code computes with (progress, reward, x, y).
    A value that is no number is refused here with the [TypeError] Python
    raises at the arithmetic on it. *)
Definition getnum (k : StepMetrics) (d : StepDict) : Exn + Q :=
  match step_get k d with
  | Some (VNum x) => inr x
  | Some _ => inl TypeError
  | None => inl (KeyError k)
  end.

(** The fields a step record is declared to have. *)
Definition declared_fields : list StepMetrics :=
  [EPISODE; X; Y; STEER; REWARD; DONE; PROG; EPISODE_STATUS].

Definition has_all_fields (d : StepDict) : bool :=
  forallb (fun k => match step_get k d with Some _ => true | None => false end)
          declared_fields.

(** Modelled from the spec: [StepMetrics.validate_dict] lives in
    markov.metrics.constants, which is not among the sources; the spec has it
    check that the step has all declared fields and fail with
    [MalformedRecord] otherwise. *)
Definition validate_dict (d : StepDict) : Exn + unit :=
  if has_all_fields d then inr tt else inl MalformedRecord.

(** [EpisodeStatus.get_episode_status_label(status)]: the label table is in
    markov.metrics.constants; the label is kept as the status it is the label
    of. *)
Inductive StatusLabel : Type :=
| LabelOf (status : Value).

Definition get_episode_status_label (status : Value) : StatusLabel :=
  LabelOf status.

(** [statistics.mean]: raises on an empty list. *)
Definition statistics_mean (l : list Q) : Exn + Q :=
  match l with
  | [] => inl StatisticsError
  | _ => inr (Qred (fold_left Qplus l 0 / inject_Z (Z.of_nat (List.length l))))
  end.

(** [rl_coach.core_types.RunPhase]. *)
Inductive RunPhase : Type :=
| HEATUP | TRAIN | TEST | UNDEFINED.

Definition is_TRAIN (data : RunPhase) : bool :=
  match data with TRAIN => true | _ => false end.

(** ** TrainingMetrics *)

Module TrainingMetrics.

(** [_eval_stats_dict_]: the checkpoint under evaluation and the best mean
    seen so far. *)
Record EvalStats : Type := {
  chkpnt_name : option string;
  avg_comp_pct : Q
}.

(** A checkpoint record as written under BEST_CHECKPOINT and
    LAST_CHECKPOINT. *)
Record ChkpntStats : Type := {
  name : option string;
  stats_avg_comp_pct : Q;
  time_stamp : Q
}.

(** One entry of [_metrics_]. *)
Record TrainingMetric : Type := {
  reward_score : Z;
  metric_time : Z;
  start_time : Z;
  elapsed_time_in_milliseconds : Z;
  episode : Z;
  trial : Z;
  phase : string;
  completion_percentage : Z;
  episode_status : StatusLabel
}.

(** The object's attributes, then the logs of what it sent out. *)
Record state : Type := {
  _start_time_ : Q;
  _episode_ : Z;
  _episode_reward_ : Q;
  _progress_ : Q;
  _episode_status : Value;
  _metrics_ : list TrainingMetric;
  _is_eval_ : bool;
  _eval_trials_ : Z;
  _use_model_picker : bool;
  _eval_stats_dict_ : EvalStats;
  _best_chkpnt_stats : ChkpntStats;
  _current_eval_pct_list_ : list Q;
  is_save_simtrace_enabled : bool;
  s3_metrics : list (list TrainingMetric);
  s3_model : list (ChkpntStats * ChkpntStats);
  sim_trace : list StepDict;
  simtrace_file : list StepDict
}.

Definition set_start_time (v : Q) (s : state) : state :=
  let 'Build_state _ b c d e f g h i j k l m n o p q := s in
  Build_state v b c d e f g h i j k l m n o p q.
Definition set_episode (v : Z) (s : state) : state :=
  let 'Build_state a _ c d e f g h i j k l m n o p q := s in
  Build_state a v c d e f g h i j k l m n o p q.
Definition set_episode_reward (v : Q) (s : state) : state :=
  let 'Build_state a b _ d e f g h i j k l m n o p q := s in
  Build_state a b v d e f g h i j k l m n o p q.
Definition set_progress (v : Q) (s : state) : state :=
  let 'Build_state a b c _ e f g h i j k l m n o p q := s in
  Build_state a b c v e f g h i j k l m n o p q.
Definition set_episode_status (v : Value) (s : state) : state :=
  let 'Build_state a b c d _ f g h i j k l m n o p q := s in
  Build_state a b c d v f g h i j k l m n o p q.
Definition set_metrics (v : list TrainingMetric) (s : state) : state :=
  let 'Build_state a b c d e _ g h i j k l m n o p q := s in
  Build_state a b c d e v g h i j k l m n o p q.
Definition set_is_eval (v : bool) (s : state) : state :=
  let 'Build_state a b c d e f _ h i j k l m n o p q := s in
  Build_state a b c d e f v h i j k l m n o p q.
Definition set_eval_trials (v : Z) (s : state) : state :=
  let 'Build_state a b c d e f g _ i j k l m n o p q := s in
  Build_state a b c d e f g v i j k l m n o p q.
Definition set_eval_stats_dict (v : EvalStats) (s : state) : state :=
  let 'Build_state a b c d e f g h i _ k l m n o p q := s in
  Build_state a b c d e f g h i v k l m n o p q.
Definition set_best_chkpnt_stats (v : ChkpntStats) (s : state) : state :=
  let 'Build_state a b c d e f g h i j _ l m n o p q := s in
  Build_state a b c d e f g h i j v l m n o p q.
Definition set_current_eval_pct_list (v : list Q) (s : state) : state :=
  let 'Build_state a b c d e f g h i j k _ m n o p q := s in
  Build_state a b c d e f g h i j k v m n o p q.
Definition set_s3_metrics (v : list (list TrainingMetric)) (s : state) : state :=
  let 'Build_state a b c d e f g h i j k l m _ o p q := s in
  Build_state a b c d e f g h i j k l m v o p q.
Definition set_s3_model (v : list (ChkpntStats * ChkpntStats)) (s : state) : state :=
  let 'Build_state a b c d e f g h i j k l m n _ p q := s in
  Build_state a b c d e f g h i j k l m n v p q.
Definition set_sim_trace (v : list StepDict) (s : state) : state :=
  let 'Build_state a b c d e f g h i j k l m n o _ q := s in
  Build_state a b c d e f g h i j k l m n o v q.
Definition set_simtrace_file (v : list StepDict) (s : state) : state :=
  let 'Build_state a b c d e f g h i j k l m n o p _ := s in
  Build_state a b c d e f g h i j k l m n o p v.

Local Open Scope method_scope.

(** [__init__]: [now] and [now'] are its two clock readings, [simtrace] the
    SIMTRACE_S3_BUCKET parameter read as a truth value. *)
Definition __init__ (now now' : Q) (simtrace use_model_picker : bool) : state :=
  {| _start_time_ := now;
     _episode_ := 0;
     _episode_reward_ := 0;
     _progress_ := 0;
     _episode_status := VStr "";
     _metrics_ := [];
     _is_eval_ := true;
     _eval_trials_ := 0;
     _use_model_picker := use_model_picker;
     _eval_stats_dict_ := {| chkpnt_name := None; avg_comp_pct := 0 |};
     _best_chkpnt_stats :=
       {| name := None; stats_avg_comp_pct := 0; time_stamp := now' |};
     _current_eval_pct_list_ := [];
     is_save_simtrace_enabled := simtrace;
     s3_metrics := [];
     s3_model := [];
     sim_trace := [];
     simtrace_file := [] |}.

Definition reset (now : Q) : M state unit :=
  modify (set_start_time now) ;;
  modify (set_episode_reward 0) ;;
  modify (set_progress 0).

(** [t] and [t'] are the two clock readings, for [metric_time] and for the
    elapsed time. *)
Definition append_episode_metrics (t t' : Q) : M state unit :=
  modify (fun s =>
    set_episode (_episode_ s + (if negb (_is_eval_ s) then 1 else 0)) s) ;;
  modify (fun s =>
    set_eval_trials (_eval_trials_ s + (if negb (_is_eval_ s) then 1 else 0)) s) ;;
  s <- get ;;
  let training_metric :=
    {| reward_score := py_round (_episode_reward_ s);
       metric_time := millis t;
       start_time := millis (_start_time_ s);
       elapsed_time_in_milliseconds := millis (t' - _start_time_ s);
       episode := _episode_ s;
       trial := _eval_trials_ s;
       phase := if _is_eval_ s then "evaluation" else "training";
       completion_percentage := py_int (_progress_ s);
       episode_status := get_episode_status_label (_episode_status s) |} in
  modify (set_metrics (_metrics_ s ++ [training_metric])).

Definition upload_episode_metrics : M state unit :=
  s <- get ;;
  modify (set_s3_metrics (s3_metrics s ++ [_metrics_ s])) ;;
  if _is_eval_ s
  then modify (set_current_eval_pct_list
                 (_current_eval_pct_list_ s ++ [_progress_ s]))
  else ret tt.

(** Returns the step record as the call leaves it: the caller's dict is
    updated in place. *)
Definition upload_step_metrics (metrics : StepDict) : M state StepDict :=
  prog <- lift (getnum PROG metrics) ;;
  modify (set_progress prog) ;;
  status <- lift (getitem EPISODE_STATUS metrics) ;;
  modify (set_episode_status status) ;;
  reward <- lift (getnum REWARD metrics) ;;
  modify (fun s => set_episode_reward (_episode_reward_ s + reward) s) ;;
  s <- get ;;
  if negb (_is_eval_ s) then
    let metrics := step_set EPISODE (VNum (inject_Z (_episode_ s))) metrics in
    reward <- lift (getnum REWARD metrics) ;;
    modify (fun s => set_episode_reward (_episode_reward_ s + reward) s) ;;
    lift (validate_dict metrics) ;;
    modify (fun s => set_sim_trace (sim_trace s ++ [metrics]) s) ;;
    (if is_save_simtrace_enabled s
     then modify (fun s => set_simtrace_file (simtrace_file s ++ [metrics]) s)
     else ret tt) ;;
    ret metrics
  else ret metrics.

(** What [update] reads from outside: the two reads of the checkpoint state
    file ([None]: no checkpoint state to take a name from) and the clock. *)
Record UpdateEnv : Type := {
  read_first : option string;
  read_last : option string;
  now : Q
}.

(** [self._checkpoint_state_.read().name] *)
Definition checkpoint_name (read : option string) : Exn + string :=
  match read with
  | Some n => inr n
  | None => inl CheckpointUnavailable
  end.

(** The mean the model picker computes over a window's samples. *)
Definition window_mean (l : list Q) : Exn + Q :=
  statistics_mean (match l with [] => [-1] | _ => l end).

Definition update (data : RunPhase) (env : UpdateEnv) : M state unit :=
  modify (set_is_eval (negb (is_TRAIN data))) ;;
  s <- get ;;
  if negb (_is_eval_ s) && _use_model_picker s then
    (match chkpnt_name (_eval_stats_dict_ s) with
     | None =>
         n <- lift (checkpoint_name (read_first env)) ;;
         modify (fun s => set_eval_stats_dict
                   {| chkpnt_name := Some n;
                      avg_comp_pct := avg_comp_pct (_eval_stats_dict_ s) |} s)
     | Some _ => ret tt
     end) ;;
    modify (set_eval_trials 0) ;;
    s <- get ;;
    mean_pct <- lift (window_mean (_current_eval_pct_list_ s)) ;;
    modify (set_current_eval_pct_list []) ;;
    let time_stamp := now env in
    (if Qle_bool (avg_comp_pct (_eval_stats_dict_ s)) mean_pct then
       modify (fun s => set_eval_stats_dict
                 {| chkpnt_name := chkpnt_name (_eval_stats_dict_ s);
                    avg_comp_pct := mean_pct |} s) ;;
       modify (fun s => set_best_chkpnt_stats
                 {| name := chkpnt_name (_eval_stats_dict_ s);
                    stats_avg_comp_pct := mean_pct;
                    time_stamp := time_stamp |} s)
     else ret tt) ;;
    s <- get ;;
    let last_chkpnt_stats :=
      {| name := chkpnt_name (_eval_stats_dict_ s);
         stats_avg_comp_pct := mean_pct;
         time_stamp := time_stamp |} in
    modify (set_s3_model (s3_model s ++ [(_best_chkpnt_stats s, last_chkpnt_stats)])) ;;
    n <- lift (checkpoint_name (read_last env)) ;;
    modify (fun s => set_eval_stats_dict
              {| chkpnt_name := Some n;
                 avg_comp_pct := avg_comp_pct (_eval_stats_dict_ s) |} s)
  else ret tt.

(** The calls the sim app makes on the object. *)
Inductive call : Type :=
| Reset (now : Q)
| AppendEpisodeMetrics (t t' : Q)
| UploadEpisodeMetrics
| UploadStepMetrics (metrics : StepDict)
| Update (data : RunPhase) (env : UpdateEnv).

(** The object's state after a call, whether it returned or raised. *)
Definition exec (c : call) (s : state) : state :=
  match c with
  | Reset now => state_after (reset now s)
  | AppendEpisodeMetrics t t' => state_after (append_episode_metrics t t' s)
  | UploadEpisodeMetrics => state_after (upload_episode_metrics s)
  | UploadStepMetrics metrics => state_after (upload_step_metrics metrics s)
  | Update data env => state_after (update data env s)
  end.

Definition run (cs : list call) (s : state) : state :=
  fold_left (fun s c => exec c s) cs s.

(** The tracked best mean completion percentage. *)
Definition best_avg_completion (s : state) : Q :=
  stats_avg_comp_pct (_best_chkpnt_stats s).

End TrainingMetrics.

(** ** EvalMetrics *)

(** What a call evaluates to for its caller: [PyNone] when the method has no
    [return] statement. *)
Inductive PyResult : Type :=
| PyNone
| PyInt (n : Z).

(** [float('inf')] or a whole number of milliseconds. *)
Inductive LapTime : Type :=
| Inf
| Millis (ms : Z).

(** [x / y] on floats. *)
Definition py_div (x y : Q) : Exn + Q :=
  if Qeq_bool y 0 then inl ZeroDivisionError else inr (x / y).

Module EvalMetrics.

(** [reset_count_dict]: its four keys are set in [__init__] and never added
    to or removed. *)
Record ResetCounts : Type := {
  crashed : Z;
  off_track : Z;
  immobilized : Z;
  reversed : Z
}.

Definition count (k : EpisodeStatus) (d : ResetCounts) : Z :=
  match k with
  | CRASHED => crashed d
  | OFF_TRACK => off_track d
  | IMMOBILIZED => immobilized d
  | REVERSED => reversed d
  end.

Definition set_count (k : EpisodeStatus) (v : Z) (d : ResetCounts) : ResetCounts :=
  match k with
  | CRASHED => {| crashed := v; off_track := off_track d;
                  immobilized := immobilized d; reversed := reversed d |}
  | OFF_TRACK => {| crashed := crashed d; off_track := v;
                    immobilized := immobilized d; reversed := reversed d |}
  | IMMOBILIZED => {| crashed := crashed d; off_track := off_track d;
                      immobilized := v; reversed := reversed d |}
  | REVERSED => {| crashed := crashed d; off_track := off_track d;
                   immobilized := immobilized d; reversed := v |}
  end.

(** The dict's keys, in insertion order. *)
Definition keys : list EpisodeStatus :=
  [CRASHED; OFF_TRACK; IMMOBILIZED; REVERSED].

(** The sum the code writes out in three places, in its order. *)
Definition count_sum (d : ResetCounts) : Z :=
  count CRASHED d + count IMMOBILIZED d + count OFF_TRACK d + count REVERSED d.

(** One entry of [_metrics_]. *)
Record EvalMetric : Type := {
  completion_percentage : Z;
  metric_time : Z;
  start_time : Z;
  elapsed_time_in_milliseconds : Z;
  trial : Z;
  episode_status : StatusLabel;
  crash_count : Z;
  immobilized_count : Z;
  off_track_count : Z;
  reversed_count : Z;
  reset_count : Z
}.

(** The keys of [_video_metrics], [Mp4VideoMetrics] of
    markov.metrics.constants, and what the code stores under them. *)
Inductive Mp4VideoMetrics : Type :=
| LAP_COUNTER | COMPLETION_PERCENTAGE | RESET_COUNTER | THROTTLE
| STEERING | BEST_LAP_TIME | TOTAL_EVALUATION_TIME | VIDEO_DONE.

Inductive VideoValue : Type :=
| VInt (n : Z)
| VFloat (x : Q)
| VLap (l : LapTime)
| VStep (v : Value).

Definition Mp4VideoMetrics_eqb (a b : Mp4VideoMetrics) : bool :=
  match a, b with
  | LAP_COUNTER, LAP_COUNTER | COMPLETION_PERCENTAGE, COMPLETION_PERCENTAGE
  | RESET_COUNTER, RESET_COUNTER | THROTTLE, THROTTLE | STEERING, STEERING
  | BEST_LAP_TIME, BEST_LAP_TIME
  | TOTAL_EVALUATION_TIME, TOTAL_EVALUATION_TIME
  | VIDEO_DONE, VIDEO_DONE => true
  | _, _ => false
  end.

Definition VideoDict : Type := list (Mp4VideoMetrics * VideoValue).

(** The object's attributes, then the logs of what it sent out.
    [_agent_xy] is the empty list ([None]) or [[x, y]]. *)
Record state : Type := {
  _is_continuous : bool;
  _start_time_ : Q;
  _number_of_trials_ : Z;
  _progress_ : Q;
  _episode_status : Value;
  _metrics_ : list EvalMetric;
  _agent_xy : option (Q * Q);
  _prev_step_time : option Q;
  is_save_simtrace_enabled : bool;
  reset_count_dict : ResetCounts;
  _best_lap_time : LapTime;
  _total_evaluation_time : Z;
  _video_metrics : VideoDict;
  _reset_count_sum : Z;
  s3_metrics : list (list EvalMetric);
  sim_trace : list StepDict;
  simtrace_file : list StepDict
}.

Definition set_start_time (v : Q) (s : state) : state :=
  let 'Build_state a _ c d e f g h i j k l m n o p q := s in
  Build_state a v c d e f g h i j k l m n o p q.
Definition set_number_of_trials (v : Z) (s : state) : state :=
  let 'Build_state a b _ d e f g h i j k l m n o p q := s in
  Build_state a b v d e f g h i j k l m n o p q.
Definition set_progress (v : Q) (s : state) : state :=
  let 'Build_state a b c _ e f g h i j k l m n o p q := s in
  Build_state a b c v e f g h i j k l m n o p q.
Definition set_episode_status (v : Value) (s : state) : state :=
  let 'Build_state a b c d _ f g h i j k l m n o p q := s in
  Build_state a b c d v f g h i j k l m n o p q.
Definition set_metrics (v : list EvalMetric) (s : state) : state :=
  let 'Build_state a b c d e _ g h i j k l m n o p q := s in
  Build_state a b c d e v g h i j k l m n o p q.
Definition set_agent_xy (v : option (Q * Q)) (s : state) : state :=
  let 'Build_state a b c d e f _ h i j k l m n o p q := s in
  Build_state a b c d e f v h i j k l m n o p q.
Definition set_prev_step_time (v : option Q) (s : state) : state :=
  let 'Build_state a b c d e f g _ i j k l m n o p q := s in
  Build_state a b c d e f g v i j k l m n o p q.
Definition set_reset_count_dict (v : ResetCounts) (s : state) : state :=
  let 'Build_state a b c d e f g h i _ k l m n o p q := s in
  Build_state a b c d e f g h i v k l m n o p q.
Definition set_best_lap_time (v : LapTime) (s : state) : state :=
  let 'Build_state a b c d e f g h i j _ l m n o p q := s in
  Build_state a b c d e f g h i j v l m n o p q.
Definition set_total_evaluation_time (v : Z) (s : state) : state :=
  let 'Build_state a b c d e f g h i j k _ m n o p q := s in
  Build_state a b c d e f g h i j k v m n o p q.
Definition set_video_metrics (v : VideoDict) (s : state) : state :=
  let 'Build_state a b c d e f g h i j k l _ n o p q := s in
  Build_state a b c d e f g h i j k l v n o p q.
Definition set_reset_count_sum (v : Z) (s : state) : state :=
  let 'Build_state a b c d e f g h i j k l m _ o p q := s in
  Build_state a b c d e f g h i j k l m v o p q.
Definition set_s3_metrics (v : list (list EvalMetric)) (s : state) : state :=
  let 'Build_state a b c d e f g h i j k l m n _ p q := s in
  Build_state a b c d e f g h i j k l m n v p q.
Definition set_sim_trace (v : list StepDict) (s : state) : state :=
  let 'Build_state a b c d e f g h i j k l m n o _ q := s in
  Build_state a b c d e f g h i j k l m n o v q.
Definition set_simtrace_file (v : list StepDict) (s : state) : state :=
  let 'Build_state a b c d e f g h i j k l m n o p _ := s in
  Build_state a b c d e f g h i j k l m n o p v.

Local Open Scope method_scope.

(** [__init__]: [now] is its clock reading, [simtrace] the
    SIMTRACE_S3_BUCKET parameter read as a truth value, [empty_dict] what
    [Mp4VideoMetrics.get_empty_dict()] returned. *)
Definition __init__ (now : Q) (simtrace is_continuous : bool)
  (empty_dict : VideoDict) : state :=
  {| _is_continuous := is_continuous;
     _start_time_ := now;
     _number_of_trials_ := 0;
     _progress_ := 0;
     _episode_status := VStr "";
     _metrics_ := [];
     _agent_xy := None;
     _prev_step_time := None;
     is_save_simtrace_enabled := simtrace;
     reset_count_dict :=
       {| crashed := 0; off_track := 0; immobilized := 0; reversed := 0 |};
     _best_lap_time := Inf;
     _total_evaluation_time := 0;
     _video_metrics := empty_dict;
     _reset_count_sum := 0;
     s3_metrics := [];
     sim_trace := [];
     simtrace_file := [] |}.

(** The method has no [return]: a call evaluates to [None]. *)
Definition reset (now : Q) : M state PyResult :=
  modify (set_start_time now) ;;
  modify (fun s =>
    set_reset_count_sum (_reset_count_sum s + count_sum (reset_count_dict s)) s) ;;
  modify (fun s =>
    set_reset_count_dict
      (fold_left (fun d key => set_count key 0 d) keys (reset_count_dict s)) s) ;;
  ret PyNone.

(** [min(e, best)]: the first argument unless the second is smaller. *)
Definition lap_min (e : Z) (best : LapTime) : LapTime :=
  match best with
  | Inf => Millis e
  | Millis b => if (b <? e)%Z then Millis b else Millis e
  end.

(** [t] and [t'] are the two clock readings, for [metric_time] and for the
    elapsed time. *)
Definition append_episode_metrics (t t' : Q) : M state unit :=
  modify (fun s => set_number_of_trials (_number_of_trials_ s + 1) s) ;;
  s <- get ;;
  let crash := count CRASHED (reset_count_dict s) in
  let immob := count IMMOBILIZED (reset_count_dict s) in
  let off := count OFF_TRACK (reset_count_dict s) in
  let rev := count REVERSED (reset_count_dict s) in
  let eval_metric :=
    {| completion_percentage := py_int (_progress_ s);
       metric_time := millis t;
       start_time := millis (_start_time_ s);
       elapsed_time_in_milliseconds := millis (t' - _start_time_ s);
       trial := _number_of_trials_ s;
       episode_status := get_episode_status_label (_episode_status s);
       crash_count := crash;
       immobilized_count := immob;
       off_track_count := off;
       reversed_count := rev;
       reset_count := crash + immob + off + rev |} in
  modify (set_best_lap_time
            (lap_min (elapsed_time_in_milliseconds eval_metric) (_best_lap_time s))) ;;
  modify (set_total_evaluation_time
            (_total_evaluation_time s + elapsed_time_in_milliseconds eval_metric)) ;;
  modify (set_metrics (_metrics_ s ++ [eval_metric])).

Definition upload_episode_metrics : M state unit :=
  modify (fun s => set_s3_metrics (s3_metrics s ++ [_metrics_ s]) s).

(** [self._video_metrics[key] = value] *)
Definition video_set (key : Mp4VideoMetrics) (value : state -> VideoValue)
  : M state unit :=
  modify (fun s =>
    set_video_metrics
      (dict_set Mp4VideoMetrics_eqb key (value s) (_video_metrics s)) s).

Section Speed.

(** [math.sqrt] on floats. *)
Variable math_sqrt : Q -> Q.

(** [cur_time] and [now] are the method's two clock readings. *)
Definition _update_mp4_video_metrics (metrics : StepDict) (cur_time now : Q)
  : M state unit :=
  agent_x <- lift (getnum X metrics) ;;
  agent_y <- lift (getnum Y metrics) ;;
  s <- get ;;
  actual_speed <-
    match _agent_xy s with
    | Some (x0, y0) =>
        prev <- lift (match _prev_step_time s with
                      | Some p => inr p
                      | None => inl TypeError
                      end) ;;
        let delta_time := cur_time - prev in
        lift (py_div (math_sqrt ((x0 - agent_x) ^ 2 + (y0 - agent_y) ^ 2))
                     delta_time)
    | None => ret 0
    end ;;
  modify (set_agent_xy (Some (agent_x, agent_y))) ;;
  modify (set_prev_step_time (Some cur_time)) ;;
  video_set LAP_COUNTER (fun s => VInt (_number_of_trials_ s)) ;;
  video_set COMPLETION_PERCENTAGE (fun s => VFloat (_progress_ s)) ;;
  video_set RESET_COUNTER (fun s =>
    VInt (count_sum (reset_count_dict s)
          + (if _is_continuous s then _reset_count_sum s else 0))) ;;
  video_set THROTTLE (fun _ => VFloat actual_speed) ;;
  steer <- lift (getitem STEER metrics) ;;
  video_set STEERING (fun _ => VStep steer) ;;
  video_set BEST_LAP_TIME (fun s => VLap (_best_lap_time s)) ;;
  video_set TOTAL_EVALUATION_TIME (fun s =>
    VInt (_total_evaluation_time s + millis (now - _start_time_ s))) ;;
  done <- lift (getitem DONE metrics) ;;
  video_set VIDEO_DONE (fun _ => VStep done).

(** Returns the step record as the call leaves it: the caller's dict is
    updated in place. *)
Definition upload_step_metrics (metrics : StepDict) (cur_time now : Q)
  : M state StepDict :=
  s <- get ;;
  let metrics :=
    step_set EPISODE (VNum (inject_Z (_number_of_trials_ s))) metrics in
  prog <- lift (getnum PROG metrics) ;;
  modify (set_progress prog) ;;
  status <- lift (getitem EPISODE_STATUS metrics) ;;
  modify (set_episode_status status) ;;
  (match status with
   | VStatus k =>
       modify (fun s => set_reset_count_dict
                 (set_count k (count k (reset_count_dict s) + 1)
                            (reset_count_dict s)) s)
   | _ => ret tt
   end) ;;
  lift (validate_dict metrics) ;;
  modify (fun s => set_sim_trace (sim_trace s ++ [metrics]) s) ;;
  (if is_save_simtrace_enabled s
   then modify (fun s => set_simtrace_file (simtrace_file s ++ [metrics]) s)
   else ret tt) ;;
  _update_mp4_video_metrics metrics cur_time now ;;
  ret metrics.

(** The calls the sim app makes on the object. *)
Inductive call : Type :=
| Reset (now : Q)
| AppendEpisodeMetrics (t t' : Q)
| UploadEpisodeMetrics
| UploadStepMetrics (metrics : StepDict) (cur_time now : Q).

(** The object's state after a call, whether it returned or raised. *)
Definition exec (c : call) (s : state) : state :=
  match c with
  | Reset now => state_after (reset now s)
  | AppendEpisodeMetrics t t' => state_after (append_episode_metrics t t' s)
  | UploadEpisodeMetrics => state_after (upload_episode_metrics s)
  | UploadStepMetrics metrics cur_time now =>
      state_after (upload_step_metrics metrics cur_time now s)
  end.

Definition run (cs : list call) (s : state) : state :=
  fold_left (fun s c => exec c s) cs s.

End Speed.

(** [_handle_get_video_metrics]: the snapshot's fields in the response's
    order; [None] where the dict holds nothing under the key. *)
Definition _handle_get_video_metrics (s : state) : list (option VideoValue) :=
  map (fun key => dict_get Mp4VideoMetrics_eqb key (_video_metrics s))
      [LAP_COUNTER; COMPLETION_PERCENTAGE; RESET_COUNTER; THROTTLE; STEERING;
       BEST_LAP_TIME; TOTAL_EVALUATION_TIME; VIDEO_DONE].

(** The instantaneous speed the snapshot holds. *)
Definition speed (s : state) : option VideoValue :=
  dict_get Mp4VideoMetrics_eqb THROTTLE (_video_metrics s).

End EvalMetrics.

(** * Notions the properties are stated with *)

(** ** The model picker's observations *)

Section PickerNotions.
Import TrainingMetrics.

(** The mean the model picker compares a window's mean against. *)
Definition tracked_best_mean (s : state) : Q :=
  avg_comp_pct (_eval_stats_dict_ s).

(** The name of the checkpoint a window evaluated: the recorded one, or the
    one read when the TRAIN notification finds none recorded. *)
Definition window_checkpoint_name (env : UpdateEnv) (s : state) : option string :=
  match chkpnt_name (_eval_stats_dict_ s) with
  | Some n => Some n
  | None => read_first env
  end.

(** The [last_checkpoint] record of the latest write to the model bucket. *)
Definition last_published (s : state) : option ChkpntStats :=
  option_map snd (List.last (map Some (s3_model s)) None).

(** The mean [_eval_stats_dict_] tracks is the one of the best record, and it
    never drops below the 0.0 both start from. *)
Definition tracked (s : state) : Prop :=
  avg_comp_pct (_eval_stats_dict_ s) = stats_avg_comp_pct (_best_chkpnt_stats s)
  /\ (0 <= avg_comp_pct (_eval_stats_dict_ s))%Q.

(** A call that is not a notification of the TRAIN phase. *)
Definition not_train (c : call) : bool :=
  match c with
  | Update data _ => negb (is_TRAIN data)
  | _ => true
  end.

End PickerNotions.

(** ** Closed episodes *)

(** The record the latest [append_episode_metrics] appended. *)
Definition training_record (s : TrainingMetrics.state)
  : option TrainingMetrics.TrainingMetric :=
  List.last (map Some (TrainingMetrics._metrics_ s)) None.

Definition eval_record (s : EvalMetrics.state)
  : option EvalMetrics.EvalMetric :=
  List.last (map Some (EvalMetrics._metrics_ s)) None.

(** A step as the evaluation-side aggregator receives it: the record and the
    two clock readings of the call. *)
Definition eval_step (step : StepDict * Q * Q) : EvalMetrics.call :=
  let '(metrics, cur_time, now) := step in
  EvalMetrics.UploadStepMetrics metrics cur_time now.

(** ** Methods that leave an observation [f] of the state alone *)

Definition keeps {S B A : Type} (f : S -> B) (c : M S A) : Prop :=
  forall s, f (state_after (c s)) = f s.

(** ** Sample inputs *)

(** A step record with every declared field. *)
Definition sample_step (x y prog reward : Q) (status : Value) : StepDict :=
  [(EPISODE, VNum 0); (X, VNum x); (Y, VNum y); (STEER, VNum 0);
   (REWARD, VNum reward); (DONE, VBool false); (PROG, VNum prog);
   (EPISODE_STATUS, status)].

Definition in_progress : Value := VStr "in_progress".


(** Checkpoint reads that give [n] and then [n'], at clock reading [t]. *)
Definition reads (n n' : string) (t : Q) : TrainingMetrics.UpdateEnv :=
  {| TrainingMetrics.read_first := Some n;
     TrainingMetrics.read_last := Some n';
     TrainingMetrics.now := t |}.

(** An evaluation window with one trial that ended at progress [p]. *)
Definition window (p : Q) : list TrainingMetrics.call :=
  [TrainingMetrics.Update TEST (reads "" "" 0);
   TrainingMetrics.UploadStepMetrics (sample_step 0 0 p 1 in_progress);
   TrainingMetrics.UploadEpisodeMetrics].

(** A square root for running examples: exact on squares of rationals. *)
Definition sqrt_on_squares (x : Q) : Q :=
  Z.sqrt (Qnum x) # Pos.sqrt (Qden x).

(** ** Counting and bookkeeping notions *)

Definition EpisodeStatus_eqb (a b : EpisodeStatus) : bool :=
  match a, b with
  | CRASHED, CRASHED | OFF_TRACK, OFF_TRACK
  | IMMOBILIZED, IMMOBILIZED | REVERSED, REVERSED => true
  | _, _ => false
  end.

(** A step record whose progress can be read and whose status is the reset
    status [k]. *)
Definition counted (k : EpisodeStatus) (metrics : StepDict) : bool :=
  match getnum PROG metrics, step_get EPISODE_STATUS metrics with
  | inr _, Some (VStatus k') => EpisodeStatus_eqb k k'
  | _, _ => false
  end.

(** The step records among the calls made on the evaluation-side
    aggregator. *)
Definition steps_of (cs : list EvalMetrics.call) : list StepDict :=
  flat_map (fun c => match c with
                     | EvalMetrics.UploadStepMetrics metrics _ _ => [metrics]
                     | _ => []
                     end) cs.

(** [best] is the least of the lap times [l]: infinite when there is none. *)
Definition least_of (l : list Z) (best : LapTime) : Prop :=
  match best with
  | Inf => l = []
  | Millis b => In b l /\ Forall (fun e => (b <= e)%Z) l
  end.



(** Counters are non-negative and, window and cumulative counts together, at
    most [n]. *)
Definition counters_within (n : Z) (s : EvalMetrics.state) : Prop :=
  (forall k, 0 <= EvalMetrics.count k (EvalMetrics.reset_count_dict s))%Z
  /\ (0 <= EvalMetrics._reset_count_sum s)%Z
  /\ (EvalMetrics.count_sum (EvalMetrics.reset_count_dict s) + EvalMetrics._reset_count_sum s <= n)%Z.


(** The elapsed times of the closed episodes, oldest first. *)
Definition lap_times (s : EvalMetrics.state) : list Z :=
  map EvalMetrics.elapsed_time_in_milliseconds (EvalMetrics._metrics_ s).

(** Every record written to the model bucket has a last-checkpoint mean that
    is at most its best-checkpoint mean, and the latest one carries the
    object's best record. *)
Definition published_in_order (s : TrainingMetrics.state) : Prop :=
  Forall (fun record =>
            (TrainingMetrics.stats_avg_comp_pct (snd record)
             <= TrainingMetrics.stats_avg_comp_pct (fst record))%Q)
         (TrainingMetrics.s3_model s)
  /\ (TrainingMetrics.s3_model s = []
      \/ option_map fst (List.last (map Some (TrainingMetrics.s3_model s)) None)
         = Some (TrainingMetrics._best_chkpnt_stats s)).

(** ** The local trace file *)

(** A line of the trace file: the comma-joined keys of a record, or its
    comma-joined values. *)
Inductive TraceLine : Type :=
| Header (keys : list StepMetrics)
| Row (values : list Value).

(** [write_simtrace_to_local_file]: [file] is what the path holds, [None] when
    nothing exists there; the result is what it holds after the call. *)
Definition write_simtrace_to_local_file
  (file : option (list TraceLine)) (metrics_data : StepDict) : list TraceLine :=
  let file :=
    match file with
    | None => [Header (map fst metrics_data)]
    | Some lines => lines
    end in
  file ++ [Row (map snd metrics_data)].

(** The file after writing the records of [trace], oldest first. *)
Definition write_trace (file : option (list TraceLine)) (trace : list StepDict)
  : option (list TraceLine) :=
  fold_left (fun file metrics_data =>
               Some (write_simtrace_to_local_file file metrics_data))
            trace file.


(** The best lap time and the total evaluation time agree with the records. *)
Definition laps_accounted (s : EvalMetrics.state) : Prop :=
  least_of (lap_times s) (EvalMetrics._best_lap_time s)
  /\ EvalMetrics._total_evaluation_time s = fold_right Z.add 0%Z (lap_times s).

(** * Properties *)

(** ** Proof support *)

Ltac unfold_method :=
  cbv beta delta [bind ret raise get modify lift state_after outcome fst snd].

(** Case analysis on every scrutinee a goal's matches are stuck on. *)
Ltac split_matches :=
  repeat match goal with
         | |- context [match ?x with _ => _ end] =>
             lazymatch x with
             | context [match _ with _ => _ end] => fail
             | _ => destruct x eqn:?; simpl
             end
         end.

Section Frame.

Context {S B : Type} (f : S -> B).

Lemma keeps_ret {A} (a : A) : keeps f (ret a).
Proof. intros s. reflexivity. Qed.

Lemma keeps_lift {A} (r : Exn + A) : keeps f (lift r).
Proof. intros s. reflexivity. Qed.

Lemma keeps_get : keeps f get.
Proof. intros s. reflexivity. Qed.

Lemma keeps_modify (g : S -> S) : (forall s, f (g s) = f s) -> keeps f (modify g).
Proof. intros H s. apply H. Qed.

Lemma keeps_bind {A C} (c : M S A) (k : A -> M S C) :
  keeps f c -> (forall a, keeps f (k a)) -> keeps f (bind c k).
Proof.
  intros Hc Hk s. unfold keeps, bind, state_after in *.
  specialize (Hc s). destruct (c s) as [s' [e|a]]; simpl in *.
  - exact Hc.
  - rewrite <- Hc. apply Hk.
Qed.

End Frame.

Ltac keeps_tac :=
  repeat first
    [ apply keeps_bind; [|intros ?]
    | apply keeps_ret
    | apply keeps_lift
    | apply keeps_get
    | apply keeps_modify; intros []; reflexivity
    | match goal with
      | |- keeps _ (match ?x with _ => _ end) => destruct x
      end ].

Lemma bind_get {S A} (k : S -> M S A) (s : S) : bind get k s = k s s.
Proof. reflexivity. Qed.

Lemma bind_lift {S A C} (r : Exn + A) (a : A) (k : A -> M S C) (s : S) :
  r = inr a -> bind (lift r) k s = k a s.
Proof. intros ->. reflexivity. Qed.

Lemma bind_modify {S A} (g : S -> S) (k : unit -> M S A) (s : S) :
  bind (modify g) k s = k tt (g s).
Proof. reflexivity. Qed.

Lemma window_mean_total (l : list Q) :
  exists m, TrainingMetrics.window_mean l = inr m.
Proof.
  destruct l as [|x l]; eexists; reflexivity.
Qed.

Lemma window_mean_empty : TrainingMetrics.window_mean [] = inr (-1)%Q.
Proof. reflexivity. Qed.

Module TrainingFacts.
Import TrainingMetrics.

Lemma upload_step_metrics_frame (metrics : StepDict) (s : state) :
  let s' := state_after (upload_step_metrics metrics s) in
  _best_chkpnt_stats s' = _best_chkpnt_stats s
  /\ _eval_stats_dict_ s' = _eval_stats_dict_ s
  /\ _use_model_picker s' = _use_model_picker s
  /\ _current_eval_pct_list_ s' = _current_eval_pct_list_ s.
Proof.
  destruct s. unfold upload_step_metrics, getnum, getitem, validate_dict.
  unfold_method. simpl. split_matches; auto.
Qed.

(** Only a TRAIN notification touches the checkpoint statistics. *)
Lemma exec_frame (c : call) (s : state) :
  not_train c = true ->
  _best_chkpnt_stats (exec c s) = _best_chkpnt_stats s
  /\ _eval_stats_dict_ (exec c s) = _eval_stats_dict_ s
  /\ _use_model_picker (exec c s) = _use_model_picker s.
Proof.
  intros Hc. destruct c as [t|t t'| |metrics|data env]; simpl.
  - destruct s; auto.
  - destruct s; auto.
  - destruct s as [? ? ? ? ? ? ev ? ? ? ? ? ? ? ? ? ?]. destruct ev; auto.
  - pose proof (upload_step_metrics_frame metrics s) as H. simpl in H. tauto.
  - destruct data; try discriminate Hc; destruct s; auto.
Qed.

Lemma run_frame (cs : list call) (s : state) :
  forallb not_train cs = true ->
  _best_chkpnt_stats (run cs s) = _best_chkpnt_stats s
  /\ _eval_stats_dict_ (run cs s) = _eval_stats_dict_ s
  /\ _use_model_picker (run cs s) = _use_model_picker s.
Proof.
  revert s. induction cs as [|c cs IH]; intros s H; simpl in *; auto.
  apply andb_true_iff in H. destruct H as [Hc Hcs].
  destruct (IH (exec c s) Hcs) as (-> & -> & ->).
  now apply exec_frame.
Qed.

(** The TRAIN notification, step by step: the best record moves to the window
    mean exactly when the mean is at least the tracked one. *)
Lemma update_TRAIN_best (env : UpdateEnv) (s : state) :
  let s' := state_after (update TRAIN env s) in
  (_best_chkpnt_stats s' = _best_chkpnt_stats s
   /\ avg_comp_pct (_eval_stats_dict_ s') = avg_comp_pct (_eval_stats_dict_ s))
  \/ (exists m,
        window_mean (_current_eval_pct_list_ s) = inr m
        /\ Qle_bool (avg_comp_pct (_eval_stats_dict_ s)) m = true
        /\ stats_avg_comp_pct (_best_chkpnt_stats s') = m
        /\ avg_comp_pct (_eval_stats_dict_ s') = m).
Proof.
  destruct s as [? ? ? ? ? ? ? ? picker [cname avg] best pcts ? ? ? ? ?].
  destruct (window_mean_total pcts) as [m Hm].
  unfold update, checkpoint_name. unfold_method. simpl.
  destruct picker; simpl; [|auto].
  destruct cname as [n|]; simpl.
  - rewrite Hm. simpl.
    destruct (Qle_bool avg m) eqn:Hle; simpl.
    + right. exists m. destruct (read_last env); simpl; auto.
    + left. destruct (read_last env); simpl; auto.
  - destruct (read_first env) as [n|]; simpl; [|auto].
    rewrite Hm. simpl.
    destruct (Qle_bool avg m) eqn:Hle; simpl.
    + right. exists m. destruct (read_last env); simpl; auto.
    + left. destruct (read_last env); simpl; auto.
Qed.

Lemma exec_tracked (c : call) (s : state) : tracked s -> tracked (exec c s).
Proof.
  intros [Heq Hpos]. unfold tracked.
  destruct (not_train c) eqn:Hc.
  - destruct (exec_frame c s Hc) as (-> & -> & _). auto.
  - destruct c as [| | | |data env]; try discriminate Hc.
    destruct data; try discriminate Hc. simpl.
    destruct (update_TRAIN_best env s) as [[Hb Ha]|(m & _ & Hle & Hb & Ha)].
    + rewrite Hb, Ha. auto.
    + rewrite Hb, Ha. split; [reflexivity|].
      apply Qle_bool_iff in Hle. eapply Qle_trans; eauto.
Qed.

Lemma init_tracked (now now' : Q) (simtrace picker : bool) :
  tracked (__init__ now now' simtrace picker).
Proof. split; simpl; [reflexivity | apply Qle_refl]. Qed.

Lemma run_tracked (cs : list call) (s : state) : tracked s -> tracked (run cs s).
Proof.
  revert s. induction cs as [|c cs IH]; intros s H; simpl; auto.
  apply IH, exec_tracked, H.
Qed.

Lemma exec_best_monotone (c : call) (s : state) :
  tracked s -> (best_avg_completion s <= best_avg_completion (exec c s))%Q.
Proof.
  intros [Heq Hpos]. unfold best_avg_completion.
  destruct (not_train c) eqn:Hc.
  - destruct (exec_frame c s Hc) as (-> & _). apply Qle_refl.
  - destruct c as [| | | |data env]; try discriminate Hc.
    destruct data; try discriminate Hc. simpl.
    destruct (update_TRAIN_best env s) as [[Hb Ha]|(m & _ & Hle & Hb & Ha)].
    + rewrite Hb. apply Qle_refl.
    + rewrite Hb, <- Heq. now apply Qle_bool_iff.
Qed.

End TrainingFacts.

(** ** The model picker *)

Section ModelPicker.
Import TrainingMetrics TrainingFacts.

(** C1. The tracked best mean completion percentage never decreases: along any
    sequence of calls made on a freshly constructed object (TRAIN
    notifications among them), the best mean after any further calls is at
    least the best mean before them. *)
Theorem best_avg_completion_non_decreasing :
  forall (t t' : Q) (simtrace picker : bool) (history later : list call),
    (best_avg_completion (run history (__init__ t t' simtrace picker))
     <= best_avg_completion
          (run (history ++ later) (__init__ t t' simtrace picker)))%Q.
Proof.
  intros t t' simtrace picker history later.
  unfold run at 2. rewrite fold_left_app. fold (run history (__init__ t t' simtrace picker)).
  pose proof (run_tracked history (init_tracked t t' simtrace picker)) as Htr.
  revert Htr. generalize (run history (__init__ t t' simtrace picker)) as s.
  induction later as [|c later IH]; intros s Htr; simpl.
  - apply Qle_refl.
  - eapply Qle_trans.
    + apply (exec_best_monotone c), Htr.
    + apply IH, exec_tracked, Htr.
Qed.

(** What a TRAIN notification does when the model picker is on and the
    checkpoint names can be read. *)
Lemma update_TRAIN_spec (s : state) (env : UpdateEnv) (wname nlast : string) (m : Q) :
  _use_model_picker s = true ->
  window_checkpoint_name env s = Some wname ->
  read_last env = Some nlast ->
  window_mean (_current_eval_pct_list_ s) = inr m ->
  let s' := state_after (update TRAIN env s) in
  let last := {| name := Some wname; stats_avg_comp_pct := m; time_stamp := now env |} in
  outcome (update TRAIN env s) = inr tt
  /\ _best_chkpnt_stats s'
     = (if Qle_bool (tracked_best_mean s) m then last else _best_chkpnt_stats s)
  /\ tracked_best_mean s'
     = (if Qle_bool (tracked_best_mean s) m then m else tracked_best_mean s)
  /\ chkpnt_name (_eval_stats_dict_ s') = Some nlast
  /\ s3_model s' = s3_model s ++ [(_best_chkpnt_stats s', last)]
  /\ _current_eval_pct_list_ s' = []
  /\ _eval_trials_ s' = 0%Z
  /\ _use_model_picker s' = true.
Proof.
  destruct s as [? ? ? ? ? ? ? ? picker [cname avg] best pcts ? ? ? ? ?].
  unfold window_checkpoint_name, tracked_best_mean. simpl.
  intros -> Hw Hl Hm.
  unfold update, checkpoint_name. unfold_method. simpl.
  destruct cname as [n|]; simpl.
  - injection Hw as ->. rewrite Hm. simpl.
    destruct (Qle_bool avg m); simpl; rewrite Hl; simpl; repeat split.
  - rewrite Hw. simpl. rewrite Hm. simpl.
    destruct (Qle_bool avg m); simpl; rewrite Hl; simpl; repeat split.
Qed.

(** C2, as amended. On a TRAIN notification with the model picker on, the best
    record becomes the window's checkpoint name, mean and time stamp exactly
    when the window mean is at least the tracked best mean, and is left as it
    was otherwise. For two consecutive windows with the same mean, the best
    record carries the second window's checkpoint name after the second
    notification provided that mean was at least the tracked best mean at the
    first. *)
Theorem best_replaced_when_mean_at_least_tracked :
  forall (s : state) (env env' : UpdateEnv) (between : list call)
         (wname nlast nlast' : string) (m : Q),
    _use_model_picker s = true ->
    window_checkpoint_name env s = Some wname ->
    read_last env = Some nlast ->
    read_last env' = Some nlast' ->
    window_mean (_current_eval_pct_list_ s) = inr m ->
    let s1 := state_after (update TRAIN env s) in
    let s2 := run between s1 in
    let s3 := state_after (update TRAIN env' s2) in
    _best_chkpnt_stats s1
    = (if Qle_bool (tracked_best_mean s) m
       then {| name := Some wname; stats_avg_comp_pct := m; time_stamp := now env |}
       else _best_chkpnt_stats s)
    /\ (forallb not_train between = true ->
        window_mean (_current_eval_pct_list_ s2) = inr m ->
        Qle_bool (tracked_best_mean s) m = true ->
        window_checkpoint_name env' s2 = Some nlast
        /\ name (_best_chkpnt_stats s3) = Some nlast
        /\ option_map name (last_published s3) = Some (Some nlast)).
Proof.
  intros s env env' between wname nlast nlast' m Hp Hw Hl Hl' Hm s1 s2 s3.
  destruct (update_TRAIN_spec s env Hp Hw Hl Hm)
    as (_ & Hbest & Htr & Hname & _ & _ & _ & Hp1).
  fold s1 in Hbest, Htr, Hname, Hp1.
  split; [exact Hbest|].
  intros Hbetween Hm2 Hle. rewrite Hle in Htr.
  destruct (run_frame between s1 Hbetween) as (_ & Hstats & Hpicker).
  fold s2 in Hstats, Hpicker.
  assert (Hw2 : window_checkpoint_name env' s2 = Some nlast).
  { unfold window_checkpoint_name. rewrite Hstats, Hname. reflexivity. }
  assert (Hp2 : _use_model_picker s2 = true) by congruence.
  destruct (update_TRAIN_spec s2 env' Hp2 Hw2 Hl' Hm2)
    as (_ & Hbest3 & _ & _ & Hpub & _).
  fold s3 in Hbest3, Hpub.
  assert (Htie : Qle_bool (tracked_best_mean s2) m = true).
  { unfold tracked_best_mean in *. rewrite Hstats, Htr.
    apply Qle_bool_iff, Qle_refl. }
  rewrite Htie in Hbest3.
  split; [exact Hw2|]. split.
  - rewrite Hbest3. reflexivity.
  - unfold last_published. rewrite Hpub, map_app. simpl map.
    rewrite last_last. reflexivity.
Qed.

Lemma best_replaced_when_mean_at_least_tracked_witness :
  let s := run (window 50) (__init__ 0 0 false true) in
  let s1 := state_after (update TRAIN (reads "ckpt_1" "ckpt_2" 1) s) in
  let s2 := run (window 50) s1 in
  let s3 := state_after (update TRAIN (reads "ckpt_2" "ckpt_3" 2) s2) in
  _best_chkpnt_stats s1
  = {| name := Some "ckpt_1"%string; stats_avg_comp_pct := 50; time_stamp := 1 |}
  /\ name (_best_chkpnt_stats s3) = Some "ckpt_2"%string.
Proof.
  intros s s1 s2 s3.
  destruct (@best_replaced_when_mean_at_least_tracked
              s (reads "ckpt_1" "ckpt_2" 1) (reads "ckpt_2" "ckpt_3" 2)
              (window 50) "ckpt_1" "ckpt_2" "ckpt_3" 50%Q
              eq_refl eq_refl eq_refl eq_refl eq_refl) as [H1 H2].
  split.
  - exact H1.
  - exact (proj1 (proj2 (H2 eq_refl eq_refl eq_refl))).
Defined.

(** C2, as stated, fails: three windows with means 50, 30 and 30, evaluating
    ckpt_1, ckpt_2 and ckpt_3. After the third notification the best record
    still names ckpt_1, not the checkpoint of the second window of mean 30. *)
Lemma tie_break_needs_a_best_first_window :
  let s0 := run (window 50 ++ [Update TRAIN (reads "ckpt_1" "ckpt_2" 1)]
                 ++ window 30)
                (__init__ 0 0 false true) in
  let s1 := exec (Update TRAIN (reads "ckpt_2" "ckpt_3" 2)) s0 in
  let s2 := run (window 30) s1 in
  let s3 := exec (Update TRAIN (reads "ckpt_3" "ckpt_4" 3)) s2 in
  window_mean (_current_eval_pct_list_ s0) = inr 30%Q
  /\ window_mean (_current_eval_pct_list_ s2) = inr 30%Q
  /\ window_checkpoint_name (reads "ckpt_2" "ckpt_3" 2) s0 = Some "ckpt_2"%string
  /\ window_checkpoint_name (reads "ckpt_3" "ckpt_4" 3) s2 = Some "ckpt_3"%string
  /\ option_map name (last_published s3) = Some (Some "ckpt_3"%string)
  /\ name (_best_chkpnt_stats s3) = Some "ckpt_1"%string
  /\ name (_best_chkpnt_stats s3)
     <> window_checkpoint_name (reads "ckpt_3" "ckpt_4" 3) s2.
Proof.
  vm_compute. repeat split; discriminate.
Qed.

Lemma exec_picker (c : call) (s : state) :
  _use_model_picker (exec c s) = _use_model_picker s.
Proof.
  destruct (not_train c) eqn:Hc.
  - now apply exec_frame.
  - destruct c as [| | | |data env]; try discriminate Hc.
    destruct data; try discriminate Hc.
    destruct s as [? ? ? ? ? ? ? ? picker [cname avg] best pcts ? ? ? ? ?].
    destruct (window_mean_total pcts) as [m Hm].
    simpl. unfold update, checkpoint_name. unfold_method. simpl.
    destruct picker; simpl; [|reflexivity].
    destruct cname, (read_first env); simpl; try reflexivity;
      rewrite Hm; simpl; destruct (Qle_bool avg m); simpl;
      destruct (read_last env); reflexivity.
Qed.

Lemma run_picker (cs : list call) (s : state) :
  _use_model_picker (run cs s) = _use_model_picker s.
Proof.
  revert s. induction cs as [|c cs IH]; intros s; simpl; auto.
  rewrite IH. apply exec_picker.
Qed.

(** A TRAIN notification over a window without samples. *)
Lemma update_TRAIN_empty (s : state) (env : UpdateEnv) :
  tracked s ->
  _current_eval_pct_list_ s = [] ->
  let r := update TRAIN env s in
  (forall e, outcome r = inl e -> e = CheckpointUnavailable)
  /\ (window_checkpoint_name env s <> None -> read_last env <> None ->
      outcome r = inr tt)
  /\ (forall wname,
        _use_model_picker s = true ->
        window_checkpoint_name env s = Some wname ->
        last_published (state_after r)
        = Some {| name := Some wname; stats_avg_comp_pct := -1;
                  time_stamp := now env |})
  /\ _best_chkpnt_stats (state_after r) = _best_chkpnt_stats s
  /\ tracked_best_mean (state_after r) = tracked_best_mean s.
Proof.
  destruct s as [? ? ? ? ? ? ? ? picker [cname avg] best pcts ? ? model ? ?].
  unfold tracked, window_checkpoint_name, tracked_best_mean, last_published.
  simpl. intros [_ Hpos] ->.
  assert (Hlt : Qle_bool avg (-1) = false).
  { destruct (Qle_bool avg (-1)) eqn:Hle; [|reflexivity].
    apply Qle_bool_iff in Hle.
    pose proof (Qle_trans _ _ _ Hpos Hle) as Habs.
    exfalso. revert Habs. apply Qlt_not_le. reflexivity. }
  unfold update, checkpoint_name. unfold_method. simpl.
  destruct picker, cname as [n|], (read_first env) as [n1|]; simpl;
    rewrite ?Hlt; simpl; destruct (read_last env) as [n'|]; simpl;
    repeat split; intros; try reflexivity; try congruence;
    match goal with
    | H : Some _ = Some _ |- _ =>
        injection H as <-; rewrite map_app; simpl map; rewrite last_last;
        reflexivity
    end.
Qed.

(** C3. A TRAIN notification that finds no completion-percentage sample in its
    window does not raise on that account (the only exception it can raise is
    the failed checkpoint read, and with the checkpoint readable it returns),
    computes the mean -1, publishes it as the last checkpoint's mean, and
    leaves the best record, name and mean, as it was. *)
Theorem empty_window_keeps_best :
  forall (t t' : Q) (simtrace picker : bool) (history : list call)
         (env : UpdateEnv),
    let s := run history (__init__ t t' simtrace picker) in
    _current_eval_pct_list_ s = [] ->
    let r := update TRAIN env s in
    window_mean (_current_eval_pct_list_ s) = inr (-1)%Q
    /\ (forall e, outcome r = inl e -> e = CheckpointUnavailable)
    /\ (window_checkpoint_name env s <> None -> read_last env <> None ->
        outcome r = inr tt)
    /\ (forall wname,
          picker = true ->
          window_checkpoint_name env s = Some wname ->
          last_published (state_after r)
          = Some {| name := Some wname; stats_avg_comp_pct := -1;
                    time_stamp := now env |})
    /\ _best_chkpnt_stats (state_after r) = _best_chkpnt_stats s
    /\ tracked_best_mean (state_after r) = tracked_best_mean s.
Proof.
  intros t t' simtrace picker history env s Hempty r.
  pose proof (run_tracked history (init_tracked t t' simtrace picker)) as Htr.
  fold s in Htr.
  destruct (@update_TRAIN_empty s env Htr Hempty) as (H1 & H2 & H3 & H4 & H5).
  fold r in H1, H2, H3, H4, H5.
  split; [rewrite Hempty; apply window_mean_empty|].
  repeat split; auto.
  intros wname Hp. apply H3.
  unfold s. rewrite run_picker. exact Hp.
Qed.

Lemma empty_window_keeps_best_witness :
  let s := run (window 50 ++ [Update TRAIN (reads "ckpt_1" "ckpt_2" 1);
                              Update TEST (reads "" "" 0)])
               (__init__ 0 0 false true) in
  let r := update TRAIN (reads "ckpt_2" "ckpt_3" 2) s in
  outcome r = inr tt
  /\ _best_chkpnt_stats (state_after r)
     = {| name := Some "ckpt_1"%string; stats_avg_comp_pct := 50;
          time_stamp := 1 |}.
Proof.
  intros s r.
  destruct (@empty_window_keeps_best 0 0 false true
              (window 50 ++ [Update TRAIN (reads "ckpt_1" "ckpt_2" 1);
                             Update TEST (reads "" "" 0)])
              (reads "ckpt_2" "ckpt_3" 2) eq_refl)
    as (_ & _ & Hret & _ & Hbest & _).
  split.
  - apply Hret; discriminate.
  - exact Hbest.
Defined.

End ModelPicker.

(** ** Step records: lookups after [metrics[EPISODE] = ...] *)

Lemma step_get_set_other (k : StepMetrics) (v : Value) (d : StepDict) :
  k <> EPISODE -> step_get k (step_set EPISODE v d) = step_get k d.
Proof.
  intros Hk. unfold step_get, step_set.
  induction d as [|[k' v'] d IH]; simpl.
  - destruct k; simpl; congruence.
  - destruct k'; simpl; try (rewrite IH; reflexivity).
    destruct k; simpl; congruence.
Qed.

Lemma getnum_set_other (k : StepMetrics) (v : Value) (d : StepDict) :
  k <> EPISODE -> getnum k (step_set EPISODE v d) = getnum k d.
Proof. intros Hk. unfold getnum. now rewrite step_get_set_other. Qed.

Lemma getitem_set_other (k : StepMetrics) (v : Value) (d : StepDict) :
  k <> EPISODE -> getitem k (step_set EPISODE v d) = getitem k d.
Proof. intros Hk. unfold getitem. now rewrite step_get_set_other. Qed.



(** ** The training-side aggregator *)

Section TrainingAggregator.
Import TrainingMetrics TrainingFacts.

(** C10. [reset] sets the episode start time to the clock reading and zeroes
    the running reward and the latest progress; every other attribute, the
    episode and trial counters, the pending metrics, the sample list and the
    checkpoint statistics among them, keeps its value, and so do the logs. *)
Theorem reset_touches_three_attributes :
  forall (t : Q) (s : state),
    outcome (reset t s) = inr tt
    /\ state_after (reset t s)
       = {| _start_time_ := t;
            _episode_ := _episode_ s;
            _episode_reward_ := 0;
            _progress_ := 0;
            _episode_status := _episode_status s;
            _metrics_ := _metrics_ s;
            _is_eval_ := _is_eval_ s;
            _eval_trials_ := _eval_trials_ s;
            _use_model_picker := _use_model_picker s;
            _eval_stats_dict_ := _eval_stats_dict_ s;
            _best_chkpnt_stats := _best_chkpnt_stats s;
            _current_eval_pct_list_ := _current_eval_pct_list_ s;
            is_save_simtrace_enabled := is_save_simtrace_enabled s;
            s3_metrics := s3_metrics s;
            s3_model := s3_model s;
            sim_trace := sim_trace s;
            simtrace_file := simtrace_file s |}.
Proof.
  intros t s. destruct s. split; reflexivity.
Qed.

(** What one ingested step adds to the running reward: the step's reward once
    in evaluation mode, twice in training mode. *)
Lemma upload_step_metrics_reward (metrics metrics' : StepDict) (s : state) (r : Q) :
  outcome (upload_step_metrics metrics s) = inr metrics' ->
  getnum REWARD metrics = inr r ->
  _episode_reward_ (state_after (upload_step_metrics metrics s))
  = if _is_eval_ s
    then (_episode_reward_ s + r)%Q
    else (_episode_reward_ s + r + r)%Q.
Proof.
  destruct s as [? ? ? ? ? ? ev ? ? ? ? ? save ? ? ? ?].
  unfold upload_step_metrics. unfold_method. simpl.
  intros Hout Hr. revert Hout.
  destruct (getnum PROG metrics); simpl; [discriminate|].
  destruct (getitem EPISODE_STATUS metrics); simpl; [discriminate|].
  rewrite Hr. simpl.
  destruct ev; simpl; [reflexivity|].
  rewrite getnum_set_other by discriminate. rewrite Hr. simpl.
  destruct (validate_dict _); simpl; [discriminate|].
  destruct save; reflexivity.
Qed.

(** C5, on the code: a step of reward 1 ingested in training mode leaves a
    running reward of 2; the same step ingested in evaluation mode leaves 1. *)
Theorem training_step_reward_added_twice :
  _episode_reward_
    (run [Update TRAIN (reads "" "" 0);
          UploadStepMetrics (sample_step 0 0 10 1 in_progress)]
         (__init__ 0 0 false false)) = 2%Q
  /\ _episode_reward_
       (run [UploadStepMetrics (sample_step 0 0 10 1 in_progress)]
            (__init__ 0 0 false false)) = 1%Q.
Proof. split; reflexivity. Qed.

(** How closing an episode moves the two counters: both advance by one in
    training mode, neither advances in evaluation mode. *)
Lemma append_episode_metrics_counters (t t' : Q) (s : state) :
  let s' := state_after (append_episode_metrics t t' s) in
  _episode_ s' = (_episode_ s + (if _is_eval_ s then 0 else 1))%Z
  /\ _eval_trials_ s' = (_eval_trials_ s + (if _is_eval_ s then 0 else 1))%Z.
Proof.
  destruct s as [? ? ? ? ? ? ev ? ? ? ? ? ? ? ? ? ?].
  destruct ev; split; reflexivity.
Qed.

(** C6, on the code: an episode closed in evaluation mode leaves the trial
    counter at 0, and one closed in training mode moves it to 1 together with
    the episode counter. *)
Theorem trial_counter_advances_in_training_mode :
  let evaluating := __init__ 0 0 false false in
  let training := exec (Update TRAIN (reads "" "" 0)) evaluating in
  _is_eval_ evaluating = true
  /\ _eval_trials_ (exec (AppendEpisodeMetrics 1 1) evaluating) = 0%Z
  /\ _episode_ (exec (AppendEpisodeMetrics 1 1) evaluating) = 0%Z
  /\ _is_eval_ training = false
  /\ _eval_trials_ (exec (AppendEpisodeMetrics 1 1) training) = 1%Z
  /\ _episode_ (exec (AppendEpisodeMetrics 1 1) training) = 1%Z.
Proof. repeat split; reflexivity. Qed.

End TrainingAggregator.

(** ** Ingesting a step record *)

Section Ingest.

Variable math_sqrt : Q -> Q.







End Ingest.



(** ** The evaluation-side aggregator *)

Section Evaluation.
Import EvalMetrics.

Variable math_sqrt : Q -> Q.

(** The first update of a run, with no previous position, shows speed 0
    whatever the position. *)
Lemma first_update_speed_zero
  (metrics : StepDict) (cur_time t : Q) (s : state) :
  _agent_xy s = None ->
  outcome (_update_mp4_video_metrics math_sqrt metrics cur_time t s) = inr tt ->
  speed (state_after (_update_mp4_video_metrics math_sqrt metrics cur_time t s))
  = Some (VFloat 0).
Proof.
  destruct s as [? ? ? ? ? ? xy ? ? ? ? ? video ? ? ? ?]. simpl.
  intros ->. unfold _update_mp4_video_metrics, video_set.
  unfold_method. simpl.
  assert (Hset : forall (d : VideoDict) v,
             dict_get Mp4VideoMetrics_eqb THROTTLE
               (dict_set Mp4VideoMetrics_eqb THROTTLE v d) = Some v).
  { induction d as [|[k' v'] d IH]; intros v; simpl; [reflexivity|].
    destruct k'; simpl; auto. }
  assert (Hother : forall k (d : VideoDict) v,
             k <> THROTTLE ->
             dict_get Mp4VideoMetrics_eqb THROTTLE
               (dict_set Mp4VideoMetrics_eqb k v d)
             = dict_get Mp4VideoMetrics_eqb THROTTLE d).
  { intros k d v Hk. induction d as [|[k' v'] d IH]; simpl.
    - destruct k; simpl; congruence.
    - destruct k, k'; simpl; congruence. }
  destruct (getnum X _); simpl; [discriminate|].
  destruct (getnum Y _); simpl; [discriminate|].
  destruct (getitem STEER _); simpl; [discriminate|].
  destruct (getitem DONE _); simpl; [discriminate|].
  intros _. unfold speed. simpl.
  rewrite !Hother by discriminate. apply Hset.
Qed.

(** C7, on the code: the first update of a run, at position (3, 4), shows
    speed 0; a second update at the same clock reading raises
    [ZeroDivisionError], whatever the square root computes. *)
Theorem zero_elapsed_time_raises :
  let first := upload_step_metrics
                 math_sqrt (sample_step 3 4 10 1 in_progress) 10 10
                 (__init__ 0 false false []) in
  let second := upload_step_metrics
                  math_sqrt (sample_step 6 8 20 1 in_progress) 10 10
                  (state_after first) in
  speed (state_after first) = Some (VFloat 0)
  /\ outcome second = inl ZeroDivisionError.
Proof. split; reflexivity. Qed.

(** C9, as amended. [reset] adds the per-window counts of the four statuses to
    the cumulative continuous-race counter, sets every per-window counter to
    zero and restarts the episode clock; it changes nothing else and returns
    nothing: the pre-reset sum is what the cumulative counter grew by. *)
Theorem reset_folds_window_counts :
  forall (t : Q) (s : state),
    let r := reset t s in
    let d := reset_count_dict s in
    outcome r = inr PyNone
    /\ _reset_count_sum (state_after r)
       = (_reset_count_sum s
          + (count CRASHED d + count IMMOBILIZED d + count OFF_TRACK d
             + count REVERSED d))%Z
    /\ (forall k, count k (reset_count_dict (state_after r)) = 0%Z)
    /\ state_after r
       = set_reset_count_dict
           {| crashed := 0; off_track := 0; immobilized := 0; reversed := 0 |}
           (set_reset_count_sum
              (_reset_count_sum s
               + (count CRASHED d + count IMMOBILIZED d + count OFF_TRACK d
                  + count REVERSED d))
              (set_start_time t s)).
Proof.
  intros t s. destruct s. simpl. repeat split.
  intros k. destruct k; reflexivity.
Qed.

End Evaluation.

(** C9, as stated, fails: after two crashes and one off-track step the
    per-window counters sum to 3, and [reset] returns [None], not 3; the 3
    shows only in the cumulative counter. *)
Lemma reset_returns_nothing :
  let s := EvalMetrics.run sqrt_on_squares
             [EvalMetrics.UploadStepMetrics
                (sample_step 0 0 10 1 (VStatus CRASHED)) 1 1;
              EvalMetrics.UploadStepMetrics
                (sample_step 0 0 20 1 (VStatus CRASHED)) 2 2;
              EvalMetrics.UploadStepMetrics
                (sample_step 0 0 30 1 (VStatus OFF_TRACK)) 3 3]
             (EvalMetrics.__init__ 0 false true []) in
  EvalMetrics.count_sum (EvalMetrics.reset_count_dict s) = 3%Z
  /\ outcome (EvalMetrics.reset 4 s) = inr PyNone
  /\ outcome (EvalMetrics.reset 4 s) <> inr (PyInt 3)
  /\ EvalMetrics._reset_count_sum s = 0%Z
  /\ EvalMetrics._reset_count_sum (state_after (EvalMetrics.reset 4 s)) = 3%Z.
Proof. vm_compute. repeat split. discriminate. Qed.

(** A later update with the clock running backwards shows a negative speed:
    from (0, 0) to (3, 4) in -1 second, speed -5; one second forward, 5. *)
Lemma speed_follows_elapsed_time :
  let first := EvalMetrics.exec sqrt_on_squares
                 (EvalMetrics.UploadStepMetrics
                    (sample_step 0 0 10 1 in_progress) 10 10)
                 (EvalMetrics.__init__ 0 false false []) in
  let step := sample_step 3 4 20 1 in_progress in
  EvalMetrics.speed
    (EvalMetrics.exec sqrt_on_squares
       (EvalMetrics.UploadStepMetrics step 9 9) first)
  = Some (EvalMetrics.VFloat (-5))
  /\ EvalMetrics.speed
       (EvalMetrics.exec sqrt_on_squares
          (EvalMetrics.UploadStepMetrics step 11 11) first)
     = Some (EvalMetrics.VFloat 5).
Proof. vm_compute. split; reflexivity. Qed.

(** ** Closing an episode *)

Section CloseEpisode.

Variable math_sqrt : Q -> Q.

Lemma training_progress_after_step (metrics : StepDict) (p : Q)
  (s : TrainingMetrics.state) :
  getnum PROG metrics = inr p ->
  TrainingMetrics._progress_
    (state_after (TrainingMetrics.upload_step_metrics metrics s)) = p.
Proof.
  intros Hp. destruct s as [? ? ? ? ? ? ev ? ? ? ? ? save ? ? ? ?].
  unfold TrainingMetrics.upload_step_metrics. unfold_method. simpl.
  rewrite Hp. simpl.
  destruct (getitem EPISODE_STATUS metrics); simpl; [reflexivity|].
  destruct (getnum REWARD metrics) eqn:Hr; simpl; [reflexivity|].
  destruct ev; simpl; [reflexivity|].
  rewrite getnum_set_other by discriminate. rewrite Hr. simpl.
  destruct (validate_dict _); simpl; [reflexivity|].
  destruct save; reflexivity.
Qed.

Lemma eval_progress_after_step (metrics : StepDict) (p cur_time now : Q)
  (s : EvalMetrics.state) :
  getnum PROG metrics = inr p ->
  EvalMetrics._progress_
    (state_after (EvalMetrics.upload_step_metrics math_sqrt metrics cur_time now s))
  = p.
Proof.
  intros Hp. unfold EvalMetrics.upload_step_metrics.
  rewrite bind_get. cbv zeta.
  rewrite (bind_lift (a := p)) by (now rewrite getnum_set_other).
  rewrite bind_modify.
  transitivity (EvalMetrics._progress_ (EvalMetrics.set_progress p s));
    [|destruct s; reflexivity].
  generalize (EvalMetrics.set_progress p s).
  refine (_ : keeps EvalMetrics._progress_ _).
  keeps_tac.
Qed.

Lemma training_close_records_progress (t t' : Q) (s : TrainingMetrics.state) :
  option_map TrainingMetrics.completion_percentage
    (training_record
       (TrainingMetrics.exec (TrainingMetrics.AppendEpisodeMetrics t t') s))
  = Some (py_int (TrainingMetrics._progress_ s)).
Proof.
  destruct s. unfold training_record. simpl.
  rewrite map_app. simpl map. rewrite last_last. reflexivity.
Qed.

Lemma eval_close_records_progress (t t' : Q) (s : EvalMetrics.state) :
  option_map EvalMetrics.completion_percentage
    (eval_record
       (EvalMetrics.exec math_sqrt (EvalMetrics.AppendEpisodeMetrics t t') s))
  = Some (py_int (EvalMetrics._progress_ s)).
Proof.
  destruct s. unfold eval_record. simpl.
  rewrite map_app. simpl map. rewrite last_last. reflexivity.
Qed.

(** C8, as amended. For every sequence of ingested steps, the record that
    closing the episode appends carries as completion percentage the progress
    of the last step ingested before closing, truncated toward zero to an
    integer; this holds for the training-side and for the evaluation-side
    aggregator. *)
Theorem completion_percentage_is_truncated_last_progress :
  forall (steps : list StepDict) (esteps : list (StepDict * Q * Q))
         (last_step : StepDict) (p cur_time now t t' : Q)
         (ts : TrainingMetrics.state) (es : EvalMetrics.state),
    getnum PROG last_step = inr p ->
    option_map TrainingMetrics.completion_percentage
      (training_record
         (TrainingMetrics.run
            (map TrainingMetrics.UploadStepMetrics (steps ++ [last_step])
             ++ [TrainingMetrics.AppendEpisodeMetrics t t']) ts))
    = Some (py_int p)
    /\ option_map EvalMetrics.completion_percentage
         (eval_record
            (EvalMetrics.run math_sqrt
               (map eval_step (esteps ++ [(last_step, cur_time, now)])
                ++ [EvalMetrics.AppendEpisodeMetrics t t']) es))
       = Some (py_int p).
Proof.
  intros steps esteps last_step p cur_time now t t' ts es Hp.
  unfold TrainingMetrics.run, EvalMetrics.run.
  rewrite !map_app, !fold_left_app. cbn [fold_left map eval_step].
  split.
  - rewrite training_close_records_progress. f_equal. f_equal.
    now apply training_progress_after_step.
  - rewrite eval_close_records_progress. f_equal. f_equal.
    now apply eval_progress_after_step.
Qed.

End CloseEpisode.

Lemma completion_percentage_is_truncated_last_progress_witness :
  option_map TrainingMetrics.completion_percentage
    (training_record
       (TrainingMetrics.run
          [TrainingMetrics.UploadStepMetrics (sample_step 0 0 40 1 in_progress);
           TrainingMetrics.UploadStepMetrics
             (sample_step 3 4 (997 # 10) 1 in_progress);
           TrainingMetrics.AppendEpisodeMetrics 2 2]
          (TrainingMetrics.__init__ 0 0 false false)))
  = Some 99%Z.
Proof.
  exact (proj1 (@completion_percentage_is_truncated_last_progress
                  sqrt_on_squares
                  [sample_step 0 0 40 1 in_progress] []
                  (sample_step 3 4 (997 # 10) 1 in_progress)
                  (997 # 10) 1 1 2 2
                  (TrainingMetrics.__init__ 0 0 false false)
                  (EvalMetrics.__init__ 0 false false [])
                  eq_refl)).
Defined.

(** C8, as stated, fails: a last step at progress 99.7 closes, on either
    aggregator, into a record with completion percentage 99, where rounding
    gives 100. *)
Lemma completion_percentage_is_not_rounded :
  let step := sample_step 3 4 (997 # 10) 1 in_progress in
  let ts := TrainingMetrics.run
              [TrainingMetrics.UploadStepMetrics step;
               TrainingMetrics.AppendEpisodeMetrics 2 2]
              (TrainingMetrics.__init__ 0 0 false false) in
  let es := EvalMetrics.run sqrt_on_squares
              [EvalMetrics.UploadStepMetrics step 1 1;
               EvalMetrics.AppendEpisodeMetrics 2 2]
              (EvalMetrics.__init__ 0 false false []) in
  py_round (997 # 10) = 100%Z
  /\ option_map TrainingMetrics.completion_percentage (training_record ts)
     = Some 99%Z
  /\ option_map EvalMetrics.completion_percentage (eval_record es) = Some 99%Z
  /\ option_map TrainingMetrics.completion_percentage (training_record ts)
     <> Some (py_round (997 # 10)).
Proof. vm_compute. repeat split. discriminate. Qed.

(** * Further properties of the code *)

(** ** More proof support *)

Lemma bind_ret {S A C} (a : A) (k : A -> M S C) (s : S) :
  bind (ret a) k s = k a s.
Proof. reflexivity. Qed.

Lemma bind_lift_raises {S A C} (r : Exn + A) (e : Exn) (k : A -> M S C) (s : S) :
  r = inl e -> bind (lift r) k s = (s, inl e).
Proof. intros ->. reflexivity. Qed.

(** [keeps_tac], looking through local definitions as well. *)
Ltac keeps_steps :=
  repeat first
    [ progress cbv zeta
    | apply keeps_bind; [|intros ?]
    | apply keeps_ret
    | apply keeps_lift
    | apply keeps_get
    | apply keeps_modify; intros []; reflexivity
    | match goal with
      | |- keeps _ (match ?x with _ => _ end) => destruct x
      end ].

(** ** Reset counters of the evaluation-side aggregator *)

Section ResetCounters.
Import EvalMetrics.

Variable math_sqrt : Q -> Q.

Lemma EpisodeStatus_eqb_refl (k : EpisodeStatus) : EpisodeStatus_eqb k k = true.
Proof. destruct k; reflexivity. Qed.

Lemma bind_match_status {A} (status : Value)
  (f : EpisodeStatus -> state -> state) (k : unit -> M state A) (s : state) :
  bind (match status with VStatus key => modify (f key) | _ => ret tt end) k s
  = k tt (match status with VStatus key => f key s | _ => s end).
Proof. destruct status; reflexivity. Qed.

(** The counters after one step: the status read from the record is counted
    once the progress has been read, whatever the rest of the call does. *)
Lemma upload_step_metrics_counts
  (metrics : StepDict) (cur_time now : Q) (s : state) :
  reset_count_dict
    (state_after (upload_step_metrics math_sqrt metrics cur_time now s))
  = match getnum PROG metrics, step_get EPISODE_STATUS metrics with
    | inr _, Some (VStatus k) =>
        set_count k (count k (reset_count_dict s) + 1) (reset_count_dict s)
    | _, _ => reset_count_dict s
    end.
Proof.
  unfold upload_step_metrics. rewrite bind_get. cbv zeta.
  rewrite getnum_set_other, getitem_set_other by discriminate.
  destruct (getnum PROG metrics) as [e|p] eqn:Hp.
  { rewrite (bind_lift_raises (e := e)) by reflexivity. reflexivity. }
  rewrite (bind_lift (a := p)) by reflexivity. rewrite bind_modify.
  unfold getitem. destruct (step_get EPISODE_STATUS metrics) as [status|].
  2:{ rewrite (bind_lift_raises (e := KeyError EPISODE_STATUS)) by reflexivity.
      destruct s; reflexivity. }
  rewrite (bind_lift (a := status)) by reflexivity. rewrite bind_modify.
  rewrite bind_match_status.
  match goal with
  | |- reset_count_dict (state_after (_ ?s1)) = _ =>
      transitivity (reset_count_dict s1);
        [ generalize s1 | destruct status, s; reflexivity ]
  end.
  refine (_ : keeps reset_count_dict _).
  unfold _update_mp4_video_metrics, video_set. keeps_steps.
Qed.

Lemma count_set_count (k k' : EpisodeStatus) (v : Z) (d : ResetCounts) :
  count k (set_count k' v d) = if EpisodeStatus_eqb k k' then v else count k d.
Proof. destruct k, k'; reflexivity. Qed.

Lemma count_sum_set_count (k : EpisodeStatus) (d : ResetCounts) :
  count_sum (set_count k (count k d + 1) d) = (count_sum d + 1)%Z.
Proof. destruct k, d; unfold count_sum; simpl; lia. Qed.

Lemma upload_step_metrics_counted
  (metrics : StepDict) (cur_time now : Q) (s : state) (k : EpisodeStatus) :
  count k (reset_count_dict
             (state_after (upload_step_metrics math_sqrt metrics cur_time now s)))
  = (count k (reset_count_dict s) + (if counted k metrics then 1 else 0))%Z.
Proof.
  rewrite upload_step_metrics_counts. unfold counted.
  destruct (getnum PROG metrics); [lia|].
  destruct (step_get EPISODE_STATUS metrics) as [[| |k'|]|]; try lia.
  rewrite count_set_count.
  destruct (EpisodeStatus_eqb k k') eqn:Hk; [|lia].
  destruct k, k'; try discriminate Hk; reflexivity.
Qed.


Ltac upload_keeps :=
  intros; unfold upload_step_metrics, _update_mp4_video_metrics, video_set;
  keeps_steps.

Lemma upload_step_metrics_keeps_reset_count_sum metrics cur_time now :
  keeps _reset_count_sum (upload_step_metrics math_sqrt metrics cur_time now).
Proof. upload_keeps. Qed.

Lemma upload_step_metrics_keeps_metrics metrics cur_time now :
  keeps _metrics_ (upload_step_metrics math_sqrt metrics cur_time now).
Proof. upload_keeps. Qed.


Lemma upload_step_metrics_keeps_best_lap_time metrics cur_time now :
  keeps _best_lap_time (upload_step_metrics math_sqrt metrics cur_time now).
Proof. upload_keeps. Qed.

Lemma upload_step_metrics_keeps_total_evaluation_time metrics cur_time now :
  keeps _total_evaluation_time
    (upload_step_metrics math_sqrt metrics cur_time now).
Proof. upload_keeps. Qed.


Lemma exec_counters_within (c : call) (s : state) (n : Z) :
  counters_within n s ->
  counters_within (n + Z.of_nat (List.length (steps_of [c]))) (exec math_sqrt c s).
Proof.
  intros (Hpos & Hsum & Hle).
  destruct c as [t|t t'| |metrics cur_time now]; cbn [steps_of flat_map app List.length].
  - destruct s as [? ? ? ? ? ? ? ? ? d ? ? ? sum ? ? ?]. simpl in *.
    pose proof (Hpos CRASHED). pose proof (Hpos OFF_TRACK).
    pose proof (Hpos IMMOBILIZED). pose proof (Hpos REVERSED).
    unfold counters_within, count_sum in *. simpl in *. repeat split.
    + intros k. destruct k; simpl; lia.
    + lia.
    + lia.
  - destruct s. unfold counters_within in *. simpl in *. repeat split; auto; lia.
  - destruct s. unfold counters_within in *. simpl in *. repeat split; auto; lia.
  - unfold counters_within. cbn [exec].
    rewrite upload_step_metrics_keeps_reset_count_sum.
    repeat split.
    + intros k. rewrite upload_step_metrics_counted.
      specialize (Hpos k). destruct (counted k metrics); lia.
    + exact Hsum.
    + rewrite upload_step_metrics_counts.
      destruct (getnum PROG metrics); [simpl; lia|].
      destruct (step_get EPISODE_STATUS metrics) as [[| |k'|]|]; simpl; try lia.
      rewrite count_sum_set_count. lia.
Qed.

Lemma run_counters_within (cs : list call) (s : state) (n : Z) :
  counters_within n s ->
  counters_within (n + Z.of_nat (List.length (steps_of cs))) (run math_sqrt cs s).
Proof.
  revert s n. induction cs as [|c cs IH]; intros s n H.
  - simpl. now rewrite Z.add_0_r.
  - cbn [run fold_left].
    change (c :: cs) with ([c] ++ cs).
    unfold steps_of. rewrite flat_map_app, length_app, Nat2Z.inj_add, Z.add_assoc.
    apply IH. now apply exec_counters_within.
Qed.

(** X2. In every state the evaluation-side aggregator reaches from
    [__init__], each per-window reset counter and the cumulative counter are
    non-negative, and together they never exceed the number of step records
    the aggregator has been given. *)
Theorem reset_counters_bounded_by_steps :
  forall (t : Q) (simtrace continuous : bool) (empty_dict : VideoDict)
         (history : list call),
    let s := run math_sqrt history (__init__ t simtrace continuous empty_dict) in
    (forall k, 0 <= count k (reset_count_dict s))%Z
    /\ (0 <= _reset_count_sum s)%Z
    /\ (count_sum (reset_count_dict s) + _reset_count_sum s
        <= Z.of_nat (List.length (steps_of history)))%Z.
Proof.
  intros t simtrace continuous empty_dict history.
  apply (@run_counters_within history _ 0%Z).
  repeat split; simpl; try lia. intros k; destruct k; simpl; lia.
Qed.

End ResetCounters.

(** ** Trials and lap times of the evaluation-side aggregator *)

Section Laps.
Import EvalMetrics.

Variable math_sqrt : Q -> Q.

Lemma append_episode_metrics_appends (t t' : Q) (s : state) :
  let s' := state_after (append_episode_metrics t t' s) in
  let e := millis (t' - _start_time_ s) in
  exists r,
    _metrics_ s' = _metrics_ s ++ [r]
    /\ trial r = (_number_of_trials_ s + 1)%Z
    /\ elapsed_time_in_milliseconds r = e
    /\ reset_count r = count_sum (reset_count_dict s)
    /\ _number_of_trials_ s' = (_number_of_trials_ s + 1)%Z
    /\ _best_lap_time s' = lap_min e (_best_lap_time s)
    /\ _total_evaluation_time s' = (_total_evaluation_time s + e)%Z.
Proof.
  destruct s. simpl. eexists. repeat split.
Qed.



Lemma least_of_snoc (l : list Z) (e : Z) (best : LapTime) :
  least_of l best -> least_of (l ++ [e]) (lap_min e best).
Proof.
  destruct best as [|b]; simpl.
  - intros ->. simpl. split; [auto|]. repeat constructor. lia.
  - intros [Hin Hall]. destruct (b <? e)%Z eqn:Hlt; simpl.
    + apply Z.ltb_lt in Hlt. split.
      * apply in_or_app. auto.
      * apply Forall_app. split; [exact Hall|]. repeat constructor. lia.
    + apply Z.ltb_ge in Hlt. split.
      * apply in_or_app. right. simpl. auto.
      * apply Forall_app. split.
        -- eapply Forall_impl; [|exact Hall]. simpl. intros; lia.
        -- repeat constructor. lia.
Qed.

Lemma fold_right_add_snoc (l : list Z) (e : Z) :
  fold_right Z.add 0%Z (l ++ [e]) = (fold_right Z.add 0%Z l + e)%Z.
Proof. induction l as [|x l IH]; simpl; lia. Qed.

Lemma exec_laps_accounted (c : call) (s : state) :
  laps_accounted s -> laps_accounted (exec math_sqrt c s).
Proof.
  intros [Hbest Htotal]. unfold laps_accounted, lap_times in *.
  destruct c as [t|t t'| |metrics cur_time now]; cbn [exec].
  - destruct s. simpl in *. auto.
  - destruct (append_episode_metrics_appends t t' s)
      as (r & Hm & _ & He & _ & _ & Hb & Ht).
    rewrite Hm, Hb, Ht, map_app. cbn [map]. rewrite He, fold_right_add_snoc.
    split; [now apply least_of_snoc | lia].
  - destruct s. simpl in *. auto.
  - rewrite upload_step_metrics_keeps_metrics,
      upload_step_metrics_keeps_best_lap_time,
      upload_step_metrics_keeps_total_evaluation_time. auto.
Qed.

(** X4. In every state the evaluation-side aggregator reaches from
    [__init__], the best lap time is infinite exactly while no episode has
    been closed and is otherwise the least elapsed time among the closed
    episodes, and the total evaluation time is the sum of their elapsed
    times. *)
Theorem best_lap_time_is_least_elapsed_time :
  forall (t : Q) (simtrace continuous : bool) (empty_dict : VideoDict)
         (history : list call),
    let s := run math_sqrt history (__init__ t simtrace continuous empty_dict) in
    match _best_lap_time s with
    | Inf => _metrics_ s = []
    | Millis b =>
        In b (lap_times s) /\ Forall (fun e => (b <= e)%Z) (lap_times s)
    end
    /\ _total_evaluation_time s = fold_right Z.add 0%Z (lap_times s).
Proof.
  intros t simtrace continuous empty_dict history.
  assert (H : forall cs s, laps_accounted s -> laps_accounted (run math_sqrt cs s)).
  { induction cs as [|c cs IH]; intros s Hs; [exact Hs|].
    cbn [run fold_left]. apply IH, exec_laps_accounted, Hs. }
  destruct (H history (__init__ t simtrace continuous empty_dict))
    as [Hbest Htotal].
  { split; reflexivity. }
  intros s. fold s in Hbest, Htotal. split; [|exact Htotal].
  unfold least_of in Hbest. destruct (_best_lap_time s); [|exact Hbest].
  unfold lap_times in Hbest. now apply map_eq_nil in Hbest.
Qed.

End Laps.

(** ** The video snapshot *)

Section Snapshot.
Import EvalMetrics.

Variable math_sqrt : Q -> Q.

Lemma video_get_set_same (k : Mp4VideoMetrics) (v : VideoValue) (d : VideoDict) :
  dict_get Mp4VideoMetrics_eqb k (dict_set Mp4VideoMetrics_eqb k v d) = Some v.
Proof.
  induction d as [|[k' v'] d IH]; simpl.
  - destruct k; reflexivity.
  - destruct (Mp4VideoMetrics_eqb k k') eqn:Hk; simpl.
    + destruct k; reflexivity.
    + rewrite Hk. exact IH.
Qed.

Lemma video_get_set_other (k k' : Mp4VideoMetrics) (v : VideoValue) (d : VideoDict) :
  k <> k' ->
  dict_get Mp4VideoMetrics_eqb k (dict_set Mp4VideoMetrics_eqb k' v d)
  = dict_get Mp4VideoMetrics_eqb k d.
Proof.
  intros Hk. induction d as [|[k'' v''] d IH]; simpl.
  - destruct k, k'; simpl; congruence.
  - destruct (Mp4VideoMetrics_eqb k' k'') eqn:Hk'; simpl.
    + destruct k, k', k''; simpl in *; congruence.
    + rewrite IH. reflexivity.
Qed.

Ltac video_lookup :=
  repeat first
    [ rewrite video_get_set_same
    | rewrite video_get_set_other by discriminate ].

(** The snapshot a successful [_update_mp4_video_metrics] leaves. *)
Lemma update_mp4_video_metrics_snapshot
  (metrics : StepDict) (cur_time now : Q) (s : state) :
  outcome (_update_mp4_video_metrics math_sqrt metrics cur_time now s) = inr tt ->
  exists x y steer done,
    getnum X metrics = inr x
    /\ getnum Y metrics = inr y
    /\ getitem STEER metrics = inr steer
    /\ getitem DONE metrics = inr done
    /\ _handle_get_video_metrics
         (state_after (_update_mp4_video_metrics math_sqrt metrics cur_time now s))
       = [Some (VInt (_number_of_trials_ s));
          Some (VFloat (_progress_ s));
          Some (VInt (count_sum (reset_count_dict s)
                      + (if _is_continuous s then _reset_count_sum s else 0)));
          Some (VFloat
                  match _agent_xy s, _prev_step_time s with
                  | Some (x0, y0), Some prev =>
                      math_sqrt ((x0 - x) ^ 2 + (y0 - y) ^ 2) / (cur_time - prev)
                  | _, _ => 0
                  end);
          Some (VStep steer);
          Some (VLap (_best_lap_time s));
          Some (VInt (_total_evaluation_time s + millis (now - _start_time_ s)));
          Some (VStep done)].
Proof.
  destruct s as [? ? ? ? ? ? xy prev ? ? ? ? video ? ? ? ?].
  unfold _update_mp4_video_metrics, video_set, py_div. unfold_method. simpl.
  destruct (getnum X metrics) as [|x]; simpl; [discriminate|].
  destruct (getnum Y metrics) as [|y]; simpl; [discriminate|].
  destruct xy as [[x0 y0]|]; simpl.
  - destruct prev as [prev|]; simpl; [|discriminate].
    destruct (Qeq_bool (cur_time - prev) 0); simpl; [discriminate|].
    destruct (getitem STEER metrics) as [|steer]; simpl; [discriminate|].
    destruct (getitem DONE metrics) as [|done]; simpl; [discriminate|].
    intros _. exists x, y, steer, done. repeat split.
    unfold _handle_get_video_metrics. simpl. video_lookup. reflexivity.
  - destruct (getitem STEER metrics) as [|steer]; simpl; [discriminate|].
    destruct (getitem DONE metrics) as [|done]; simpl; [discriminate|].
    intros _. exists x, y, steer, done. repeat split.
    unfold _handle_get_video_metrics. simpl. video_lookup. reflexivity.
Qed.

Lemma bind_if {A} (b : bool) (g : state -> state) (k : unit -> M state A)
  (s : state) :
  bind (if b then modify g else ret tt) k s = k tt (if b then g s else s).
Proof. destruct b; reflexivity. Qed.

Lemma bind_then_ret {A B} (c : M state A) (b b' : B) (s : state) :
  outcome (bind c (fun _ => ret b) s) = inr b' ->
  (exists a, outcome (c s) = inr a)
  /\ b' = b
  /\ state_after (bind c (fun _ => ret b) s) = state_after (c s).
Proof.
  unfold bind, outcome, state_after. destruct (c s) as [s' [e|a]]; simpl.
  - discriminate.
  - intros [= <-]. eauto.
Qed.

(** How a successful [upload_step_metrics] runs: the record passes the reads
    and the validation, and the snapshot is taken in a state that holds the
    record's progress and has its status counted. *)
Lemma upload_step_metrics_success
  (metrics metrics' : StepDict) (cur_time now : Q) (s : state) :
  outcome (upload_step_metrics math_sqrt metrics cur_time now s) = inr metrics' ->
  exists p status s1,
    getnum PROG metrics = inr p
    /\ getitem EPISODE_STATUS metrics = inr status
    /\ metrics'
       = step_set EPISODE (VNum (inject_Z (_number_of_trials_ s))) metrics
    /\ validate_dict metrics' = inr tt
    /\ outcome (_update_mp4_video_metrics math_sqrt metrics' cur_time now s1)
       = inr tt
    /\ state_after (upload_step_metrics math_sqrt metrics cur_time now s)
       = state_after
           (_update_mp4_video_metrics math_sqrt metrics' cur_time now s1)
    /\ _progress_ s1 = p
    /\ reset_count_dict s1
       = match status with
         | VStatus k =>
             set_count k (count k (reset_count_dict s) + 1) (reset_count_dict s)
         | _ => reset_count_dict s
         end
    /\ (_number_of_trials_ s1, _is_continuous s1, _reset_count_sum s1)
       = (_number_of_trials_ s, _is_continuous s, _reset_count_sum s)
    /\ (_best_lap_time s1, _total_evaluation_time s1, _start_time_ s1)
       = (_best_lap_time s, _total_evaluation_time s, _start_time_ s)
    /\ (_agent_xy s1, _prev_step_time s1) = (_agent_xy s, _prev_step_time s).
Proof.
  destruct s as [? ? ? ? ? ? ? ? save ? ? ? ? ? ? ? ?].
  unfold upload_step_metrics. rewrite bind_get. cbv zeta.
  rewrite getnum_set_other, getitem_set_other by discriminate.
  destruct (getnum PROG metrics) as [e|p] eqn:Hp.
  { rewrite (bind_lift_raises (e := e)) by reflexivity. discriminate. }
  rewrite (bind_lift (a := p)) by reflexivity. rewrite bind_modify.
  destruct (getitem EPISODE_STATUS metrics) as [e|status] eqn:Hst.
  { rewrite (bind_lift_raises (e := e)) by reflexivity. discriminate. }
  rewrite (bind_lift (a := status)) by reflexivity. rewrite bind_modify.
  rewrite bind_match_status.
  destruct (validate_dict _) as [e|[]] eqn:Hv.
  { rewrite (bind_lift_raises (e := e)) by reflexivity. discriminate. }
  rewrite (bind_lift (a := tt)) by reflexivity. rewrite bind_modify, bind_if.
  intros Hout. apply bind_then_ret in Hout.
  destruct Hout as ([[] Hup] & -> & Hstate).
  refine (ex_intro _ p (ex_intro _ status (ex_intro _ _
            (conj eq_refl (conj eq_refl (conj eq_refl (conj Hv (conj Hup
               (conj Hstate _))))))))).
  destruct status, save; repeat split.
Qed.

(** X5. After a successful [upload_step_metrics] on the evaluation-side
    aggregator, the video snapshot holds, in the response's order: the trial
    counter, the step's progress, the reset count of the window with this
    step's status counted (plus the cumulative count in a continuous race),
    the speed (distance from the previous position over the elapsed time, 0
    on the first update), the step's steering value, the best lap time, the
    evaluation time of the closed episodes plus that of the one in flight,
    and the step's done flag. *)
Theorem snapshot_reflects_latest_step :
  forall (metrics metrics' : StepDict) (cur_time now : Q) (s : state),
    outcome (upload_step_metrics math_sqrt metrics cur_time now s)
    = inr metrics' ->
    exists p status x y steer done,
      getnum PROG metrics = inr p
      /\ getitem EPISODE_STATUS metrics = inr status
      /\ getnum X metrics = inr x
      /\ getnum Y metrics = inr y
      /\ getitem STEER metrics = inr steer
      /\ getitem DONE metrics = inr done
      /\ _handle_get_video_metrics
           (state_after (upload_step_metrics math_sqrt metrics cur_time now s))
         = [Some (VInt (_number_of_trials_ s));
            Some (VFloat p);
            Some (VInt (count_sum (reset_count_dict s)
                        + (match status with VStatus _ => 1 | _ => 0 end)
                        + (if _is_continuous s then _reset_count_sum s else 0)));
            Some (VFloat
                    match _agent_xy s, _prev_step_time s with
                    | Some (x0, y0), Some prev =>
                        math_sqrt ((x0 - x) ^ 2 + (y0 - y) ^ 2)
                        / (cur_time - prev)
                    | _, _ => 0
                    end);
            Some (VStep steer);
            Some (VLap (_best_lap_time s));
            Some (VInt (_total_evaluation_time s
                        + millis (now - _start_time_ s)));
            Some (VStep done)].
Proof.
  intros metrics metrics' cur_time now s Hout.
  destruct (upload_step_metrics_success _ _ _ _ Hout)
    as (p & status & s1 & Hp & Hst & Hm' & _ & Hup & Hstate & Hprog & Hdict
        & [= Htr Hcont Hsum] & [= Hbest Htot Hstart] & [= Hxy Hprev]).
  destruct (update_mp4_video_metrics_snapshot _ _ _ _ Hup)
    as (x & y & steer & done & Hx & Hy & Hsteer & Hdone & Hsnap).
  subst metrics'.
  rewrite getnum_set_other in Hx, Hy by discriminate.
  rewrite getitem_set_other in Hsteer, Hdone by discriminate.
  exists p, status, x, y, steer, done. repeat split; try assumption.
  rewrite Hstate, Hsnap, Hprog, Hdict, Htr, Hcont, Hsum, Hbest, Htot, Hstart,
    Hxy, Hprev.
  repeat f_equal.
  destruct status; try lia. rewrite count_sum_set_count. reflexivity.
Qed.

(** X6. A window reset followed by a successfully ingested step: in a
    continuous race the snapshot's reset counter is the cumulative count
    before the reset plus the counts of the window the reset closed, plus one
    if the step's own status is a reset status; otherwise it is that one or
    zero alone, the closed window's counts being left out. *)
Theorem reset_counter_carries_over_in_continuous_race :
  forall (metrics metrics' : StepDict) (t cur_time now : Q) (s : state),
    let s0 := state_after (reset t s) in
    outcome (upload_step_metrics math_sqrt metrics cur_time now s0)
    = inr metrics' ->
    exists status,
      getitem EPISODE_STATUS metrics = inr status
      /\ nth_error
           (_handle_get_video_metrics
              (state_after
                 (upload_step_metrics math_sqrt metrics cur_time now s0))) 2
         = Some (Some (VInt
             ((match status with VStatus _ => 1 | _ => 0 end)
              + (if _is_continuous s
                 then _reset_count_sum s + count_sum (reset_count_dict s)
                 else 0)))).
Proof.
  intros metrics metrics' t cur_time now s s0 Hout.
  destruct (upload_step_metrics_success _ _ _ _ Hout)
    as (p & status & s1 & _ & Hst & _ & _ & Hup & Hstate & _ & Hdict
        & [= _ Hcont Hsum] & _).
  destruct (update_mp4_video_metrics_snapshot _ _ _ _ Hup)
    as (x & y & steer & done & _ & _ & _ & _ & Hsnap).
  exists status. split; [exact Hst|].
  rewrite Hstate, Hsnap. cbn [nth_error]. rewrite Hdict, Hcont, Hsum.
  do 3 f_equal. unfold s0. destruct s as [cont ? ? ? ? ? ? ? ? d ? ? ? sum ? ? ?].
  destruct status as [| |k|]; try destruct k; destruct cont; simpl;
    unfold count_sum; simpl; lia.
Qed.

End Snapshot.

Lemma snapshot_reflects_latest_step_witness :
  exists p,
    getnum PROG (sample_step 3 4 50 1 in_progress) = inr p
    /\ nth_error
         (EvalMetrics._handle_get_video_metrics
            (state_after
               (EvalMetrics.upload_step_metrics sqrt_on_squares
                  (sample_step 3 4 50 1 in_progress) 1 1
                  (EvalMetrics.__init__ 0 false false [])))) 1
       = Some (Some (EvalMetrics.VFloat p)).
Proof.
  destruct (@snapshot_reflects_latest_step sqrt_on_squares
              (sample_step 3 4 50 1 in_progress)
              (sample_step 3 4 50 1 in_progress) 1 1
              (EvalMetrics.__init__ 0 false false []) eq_refl)
    as (p & status & x & y & steer & done & Hp & _ & _ & _ & _ & _ & Hsnap).
  exists p. split; [exact Hp|]. rewrite Hsnap. reflexivity.
Defined.

Lemma reset_counter_carries_over_in_continuous_race_witness :
  let s := EvalMetrics.run sqrt_on_squares
             [EvalMetrics.UploadStepMetrics
                (sample_step 0 0 10 1 (VStatus CRASHED)) 1 1;
              EvalMetrics.UploadStepMetrics
                (sample_step 0 0 20 1 (VStatus OFF_TRACK)) 2 2]
             (EvalMetrics.__init__ 0 false true []) in
  exists status,
    nth_error
      (EvalMetrics._handle_get_video_metrics
         (state_after
            (EvalMetrics.upload_step_metrics sqrt_on_squares
               (sample_step 0 0 30 1 (VStatus CRASHED)) 4 4
               (state_after (EvalMetrics.reset 3 s))))) 2
    = Some (Some (EvalMetrics.VInt
                    ((match status with VStatus _ => 1 | _ => 0 end) + 2))).
Proof.
  intros s.
  destruct (@reset_counter_carries_over_in_continuous_race sqrt_on_squares
              (sample_step 0 0 30 1 (VStatus CRASHED))
              (sample_step 0 0 30 1 (VStatus CRASHED)) 3 4 4 s eq_refl)
    as (status & _ & Hsnap).
  exists status. exact Hsnap.
Defined.

(** ** Phase notifications *)

Section Notifications.
Import TrainingMetrics TrainingFacts.

(** X7. A notification of any phase other than TRAIN, and any notification
    while the model picker is off, only records the mode: it reads no
    checkpoint, computes no mean, publishes nothing, raises nothing and leaves
    the samples, the counters and the checkpoint statistics as they are. *)
Theorem notification_without_picking_only_sets_mode :
  forall (data : RunPhase) (env : UpdateEnv) (s : state),
    is_TRAIN data = false \/ _use_model_picker s = false ->
    update data env s = (set_is_eval (negb (is_TRAIN data)) s, inr tt).
Proof.
  intros data env s H. destruct s as [? ? ? ? ? ? ? ? picker ? ? ? ? ? ? ? ?].
  unfold update. unfold_method. simpl in *.
  destruct H as [-> | ->]; simpl; [reflexivity|].
  rewrite andb_false_r. reflexivity.
Qed.

(** X8. When the checkpoint state cannot be read. If no checkpoint name is
    recorded and the first read fails, the TRAIN notification raises having
    only recorded the mode: the window's samples are still there. If the
    window's checkpoint is known and only the read for the next window fails,
    it raises after the window has been scored: the record is published, the
    samples are cleared, and the recorded checkpoint name stays the one just
    evaluated. *)
Theorem checkpoint_read_failure :
  forall (env : UpdateEnv) (s : state),
    _use_model_picker s = true ->
    (chkpnt_name (_eval_stats_dict_ s) = None -> read_first env = None ->
     update TRAIN env s = (set_is_eval false s, inl CheckpointUnavailable))
    /\ (forall wname m,
          window_checkpoint_name env s = Some wname ->
          window_mean (_current_eval_pct_list_ s) = inr m ->
          read_last env = None ->
          let s' := state_after (update TRAIN env s) in
          outcome (update TRAIN env s) = inl CheckpointUnavailable
          /\ last_published s'
             = Some {| name := Some wname; stats_avg_comp_pct := m;
                       time_stamp := now env |}
          /\ List.length (s3_model s') = S (List.length (s3_model s))
          /\ _current_eval_pct_list_ s' = []
          /\ chkpnt_name (_eval_stats_dict_ s') = Some wname).
Proof.
  intros env s. destruct s as [? ? ? ? ? ? ? ? picker [cname avg] best pcts ? ? model ? ?].
  unfold window_checkpoint_name, last_published. simpl. intros ->. split.
  - intros -> Hfirst. unfold update, checkpoint_name. unfold_method. simpl.
    rewrite Hfirst. reflexivity.
  - intros wname m Hw Hm Hlast.
    unfold update, checkpoint_name. unfold_method. simpl.
    destruct cname as [n|]; simpl.
    + injection Hw as ->. rewrite Hm. simpl.
      destruct (Qle_bool avg m); simpl; rewrite Hlast; simpl;
        rewrite map_app; simpl map; rewrite last_last, length_app; simpl;
        repeat split; lia.
    + rewrite Hw. simpl. rewrite Hm. simpl.
      destruct (Qle_bool avg m); simpl; rewrite Hlast; simpl;
        rewrite map_app; simpl map; rewrite last_last, length_app; simpl;
        repeat split; lia.
Qed.

End Notifications.

Lemma notification_without_picking_only_sets_mode_witness :
  TrainingMetrics.update TEST (reads "ckpt_1" "ckpt_2" 1)
    (TrainingMetrics.__init__ 0 0 false true)
  = (TrainingMetrics.set_is_eval true (TrainingMetrics.__init__ 0 0 false true),
     inr tt).
Proof.
  exact (@notification_without_picking_only_sets_mode
           TEST (reads "ckpt_1" "ckpt_2" 1)
           (TrainingMetrics.__init__ 0 0 false true) (or_introl eq_refl)).
Defined.

Lemma checkpoint_read_failure_witness :
  let none := {| TrainingMetrics.read_first := None;
                 TrainingMetrics.read_last := None;
                 TrainingMetrics.now := 1 |} in
  let first := {| TrainingMetrics.read_first := Some "ckpt_1"%string;
                  TrainingMetrics.read_last := None;
                  TrainingMetrics.now := 1 |} in
  let s := TrainingMetrics.run (window 50) (TrainingMetrics.__init__ 0 0 false true) in
  TrainingMetrics.update TRAIN none s
  = (TrainingMetrics.set_is_eval false s, inl CheckpointUnavailable)
  /\ TrainingMetrics._current_eval_pct_list_
       (state_after (TrainingMetrics.update TRAIN first s)) = [].
Proof.
  intros none first s. split.
  - exact (proj1 (@checkpoint_read_failure none s eq_refl) eq_refl eq_refl).
  - exact (proj1 (proj2 (proj2 (proj2
             (proj2 (@checkpoint_read_failure first s eq_refl)
                    "ckpt_1"%string 50%Q eq_refl eq_refl eq_refl))))).
Defined.

(** ** What the training-side aggregator publishes *)

Section Published.
Import TrainingMetrics TrainingFacts.

Lemma run_invariant (P : state -> Prop) :
  (forall c s, P s -> P (exec c s)) ->
  forall cs s, P s -> P (run cs s).
Proof.
  intros Hexec. induction cs as [|c cs IH]; intros s Hs; [exact Hs|].
  cbn [run fold_left]. apply IH, Hexec, Hs.
Qed.

Lemma training_upload_keeps_s3_model metrics :
  keeps s3_model (upload_step_metrics metrics).
Proof. unfold upload_step_metrics. keeps_steps. Qed.

Lemma exec_frame_model (c : call) (s : state) :
  not_train c = true -> s3_model (exec c s) = s3_model s.
Proof.
  intros Hc. destruct c as [t|t t'| |metrics|data env]; cbn [exec].
  - destruct s; reflexivity.
  - destruct s; reflexivity.
  - destruct s as [? ? ? ? ? ? ev ? ? ? ? ? ? ? ? ? ?]. destruct ev; reflexivity.
  - apply training_upload_keeps_s3_model.
  - destruct data; try discriminate Hc; destruct s; reflexivity.
Qed.

Lemma update_TRAIN_published (env : UpdateEnv) (s : state) :
  tracked s -> published_in_order s ->
  published_in_order (state_after (update TRAIN env s)).
Proof.
  destruct s as [? ? ? ? ? ? ? ? picker [cname avg] best pcts ? ? model ? ?].
  unfold tracked, published_in_order. simpl. intros [Heq _] [Hall Hlast].
  destruct (window_mean_total pcts) as [m Hm].
  assert (Hnew : forall b : ChkpntStats,
             (m <= stats_avg_comp_pct b)%Q ->
             Forall (fun record =>
                       (stats_avg_comp_pct (snd record)
                        <= stats_avg_comp_pct (fst record))%Q)
                    (model ++ [(b, {| name := match cname with
                                              | Some n => Some n
                                              | None => read_first env
                                              end;
                                      stats_avg_comp_pct := m;
                                      time_stamp := now env |})])).
  { intros b Hb. apply Forall_app. split; [exact Hall|].
    constructor; [exact Hb | constructor]. }
  unfold update, checkpoint_name. unfold_method. simpl.
  destruct picker; simpl; [|auto].
  destruct cname as [n|]; simpl.
  - rewrite Hm. simpl. destruct (Qle_bool avg m) eqn:Hle; simpl;
      destruct (read_last env); simpl;
      (split; [ apply Hnew; simpl
              | right; rewrite map_app; simpl map; rewrite last_last;
                reflexivity ]);
      try apply Qle_refl;
      rewrite <- Heq; apply Qlt_le_weak, Qnot_le_lt; intros H;
      apply Qle_bool_iff in H; congruence.
  - destruct (read_first env) as [n|] eqn:Hfirst; simpl; [|auto].
    rewrite Hm. simpl. destruct (Qle_bool avg m) eqn:Hle; simpl;
      destruct (read_last env); simpl;
      (split; [ apply Hnew; simpl
              | right; rewrite map_app; simpl map; rewrite last_last;
                reflexivity ]);
      try apply Qle_refl;
      rewrite <- Heq; apply Qlt_le_weak, Qnot_le_lt; intros H;
      apply Qle_bool_iff in H; congruence.
Qed.

(** X9. In every state the training-side aggregator reaches from
    [__init__], each record written to the model bucket has a last-checkpoint
    mean that is at most its best-checkpoint mean, and the best record of the
    latest write is the best record the object holds. *)
Theorem published_best_is_at_least_last :
  forall (t t' : Q) (simtrace picker : bool) (history : list call),
    published_in_order (run history (__init__ t t' simtrace picker)).
Proof.
  intros t t' simtrace picker history.
  enough (H : tracked (run history (__init__ t t' simtrace picker))
              /\ published_in_order (run history (__init__ t t' simtrace picker)))
    by apply H.
  apply (@run_invariant (fun s => tracked s /\ published_in_order s)).
  - intros c s [Htr Hpub]. split; [now apply exec_tracked|].
    destruct (not_train c) eqn:Hc.
    + unfold published_in_order.
      rewrite (exec_frame_model c s Hc).
      destruct (exec_frame c s Hc) as (-> & _). exact Hpub.
    + destruct c as [| | | |data env]; try discriminate Hc.
      destruct data; try discriminate Hc. now apply update_TRAIN_published.
  - split; [apply init_tracked|]. split; [constructor | left; reflexivity].
Qed.

End Published.

(** ** Pending records and counters of the training-side aggregator *)

Section Pending.
Import TrainingMetrics TrainingFacts.












End Pending.

(** ** What a step leaves in the record and in the trace *)

Section Traced.
Import TrainingMetrics.

Lemma step_get_set_same (v : Value) (d : StepDict) :
  step_get EPISODE (step_set EPISODE v d) = Some v.
Proof.
  unfold step_get, step_set. induction d as [|[k' v'] d IH]; simpl.
  - reflexivity.
  - destruct k'; simpl; auto.
Qed.

(** X12. A step the training-side aggregator accepts in training mode comes
    back with its episode index overwritten by the episode counter and every
    other field untouched, has every declared field, and is appended, in that
    form, to the trace log, and to the local trace file when saving is
    enabled. A step accepted in evaluation mode comes back unchanged and is
    traced nowhere. *)
Theorem accepted_step_is_traced_in_training_mode :
  forall (metrics metrics' : StepDict) (s : state),
    outcome (upload_step_metrics metrics s) = inr metrics' ->
    let s' := state_after (upload_step_metrics metrics s) in
    if _is_eval_ s
    then metrics' = metrics
         /\ sim_trace s' = sim_trace s
         /\ simtrace_file s' = simtrace_file s
    else metrics' = step_set EPISODE (VNum (inject_Z (_episode_ s))) metrics
         /\ step_get EPISODE metrics' = Some (VNum (inject_Z (_episode_ s)))
         /\ (forall k, k <> EPISODE -> step_get k metrics' = step_get k metrics)
         /\ has_all_fields metrics' = true
         /\ sim_trace s' = sim_trace s ++ [metrics']
         /\ simtrace_file s'
            = (if is_save_simtrace_enabled s
               then simtrace_file s ++ [metrics']
               else simtrace_file s).
Proof.
  intros metrics metrics' s.
  destruct s as [? ep ? ? ? ? ev ? ? ? ? ? save ? ? ? ?].
  unfold upload_step_metrics. unfold_method. simpl.
  destruct (getnum PROG metrics); simpl; [discriminate|].
  destruct (getitem EPISODE_STATUS metrics); simpl; [discriminate|].
  destruct (getnum REWARD metrics) eqn:Hr; simpl; [discriminate|].
  destruct ev; simpl.
  - intros [= <-]. auto.
  - rewrite getnum_set_other by discriminate. rewrite Hr. simpl.
    unfold validate_dict.
    destruct (has_all_fields _) eqn:Hall; simpl; [|discriminate].
    destruct save; simpl; intros [= <-];
      (repeat split;
       [ apply step_get_set_same
       | intros k Hk; now apply step_get_set_other
       | exact Hall ]).
Qed.

End Traced.

Lemma accepted_step_is_traced_in_training_mode_witness :
  let s := TrainingMetrics.exec
             (TrainingMetrics.Update TRAIN (reads "" "" 0))
             (TrainingMetrics.exec (TrainingMetrics.AppendEpisodeMetrics 1 1)
                (TrainingMetrics.exec
                   (TrainingMetrics.Update TRAIN (reads "" "" 0))
                   (TrainingMetrics.__init__ 0 0 true false))) in
  let metrics' := step_set EPISODE (VNum 1) (sample_step 3 4 50 1 in_progress) in
  TrainingMetrics.simtrace_file
    (state_after
       (TrainingMetrics.upload_step_metrics
          (sample_step 3 4 50 1 in_progress) s))
  = [metrics'].
Proof.
  intros s metrics'.
  exact (proj2 (proj2 (proj2 (proj2 (proj2
           (@accepted_step_is_traced_in_training_mode
              (sample_step 3 4 50 1 in_progress) metrics' s eq_refl)))))).
Defined.

(** ** Bounds on the completion percentage *)

Lemma py_int_bounds (p : Q) :
  (0 <= p)%Q ->
  (0 <= py_int p)%Z
  /\ (inject_Z (py_int p) <= p)%Q
  /\ (p < inject_Z (py_int p) + 1)%Q.
Proof.
  intros Hp. unfold py_int. destruct p as [n d].
  assert (Hnum : (0 <= Qnum (n # d))%Z).
  { unfold Qle in Hp. simpl in *. lia. }
  simpl in Hnum. simpl Qnum. simpl Qden.
  rewrite Z.quot_div_nonneg by lia.
  change (n / Z.pos d)%Z with (Qfloor (n # d)).
  repeat split.
  - apply Z.div_pos; lia.
  - apply Qfloor_le.
  - change 1%Q with (inject_Z 1). rewrite <- inject_Z_plus. apply Qlt_floor.
Qed.

(** X13. When the latest progress is not negative, the completion percentage
    of the record that closing an episode appends is the whole part of that
    progress: it is not negative, never exceeds the progress, and is less than
    one below it; so a progress within 0..100 gives a completion percentage
    within 0..100. This holds for both aggregators. *)
Theorem completion_percentage_is_whole_part_of_progress :
  forall (math_sqrt : Q -> Q) (t t' : Q)
         (ts : TrainingMetrics.state) (es : EvalMetrics.state),
    ((0 <= TrainingMetrics._progress_ ts)%Q ->
     exists c,
       option_map TrainingMetrics.completion_percentage
         (training_record
            (TrainingMetrics.exec (TrainingMetrics.AppendEpisodeMetrics t t') ts))
       = Some c
       /\ (0 <= c)%Z
       /\ (inject_Z c <= TrainingMetrics._progress_ ts)%Q
       /\ (TrainingMetrics._progress_ ts < inject_Z c + 1)%Q
       /\ ((TrainingMetrics._progress_ ts <= 100)%Q -> (c <= 100)%Z))
    /\ ((0 <= EvalMetrics._progress_ es)%Q ->
        exists c,
          option_map EvalMetrics.completion_percentage
            (eval_record
               (EvalMetrics.exec math_sqrt
                  (EvalMetrics.AppendEpisodeMetrics t t') es))
          = Some c
          /\ (0 <= c)%Z
          /\ (inject_Z c <= EvalMetrics._progress_ es)%Q
          /\ (EvalMetrics._progress_ es < inject_Z c + 1)%Q
          /\ ((EvalMetrics._progress_ es <= 100)%Q -> (c <= 100)%Z)).
Proof.
  intros math_sqrt t t' ts es.
  assert (Hcap : forall p c, (inject_Z c <= p)%Q -> (p <= 100)%Q -> (c <= 100)%Z).
  { intros p c Hc Hp. pose proof (Qle_trans _ _ _ Hc Hp) as H.
    change 100%Q with (inject_Z 100) in H. now rewrite <- Zle_Qle in H. }
  split; intros Hp; destruct (py_int_bounds Hp) as (H0 & Hle & Hlt).
  - exists (py_int (TrainingMetrics._progress_ ts)).
    rewrite training_close_records_progress. repeat split; auto.
    now apply Hcap.
  - exists (py_int (EvalMetrics._progress_ es)).
    rewrite eval_close_records_progress. repeat split; auto.
    now apply Hcap.
Qed.

Lemma completion_percentage_is_whole_part_of_progress_witness :
  exists c,
    option_map TrainingMetrics.completion_percentage
      (training_record
         (TrainingMetrics.exec (TrainingMetrics.AppendEpisodeMetrics 1 1)
            (TrainingMetrics.__init__ 0 0 false false)))
    = Some c
    /\ (0 <= c)%Z.
Proof.
  destruct (proj1 (@completion_percentage_is_whole_part_of_progress
                     sqrt_on_squares 1 1
                     (TrainingMetrics.__init__ 0 0 false false)
                     (EvalMetrics.__init__ 0 false false [])))
    as (c & Hc & H0 & _).
  - unfold Qle. simpl. lia.
  - exists c. split; assumption.
Defined.

(** ** The local trace file *)

Lemma write_trace_existing (lines : list TraceLine) (trace : list StepDict) :
  write_trace (Some lines) trace
  = Some (lines ++ map (fun d => Row (map snd d)) trace).
Proof.
  unfold write_trace. revert lines.
  induction trace as [|d trace IH]; intros lines; cbn [fold_left map].
  - now rewrite app_nil_r.
  - rewrite IH. unfold write_simtrace_to_local_file.
    now rewrite <- app_assoc.
Qed.

(** X14. Writing a sequence of step records to the local trace file puts one
    row of values per record after what the file held, in the order written.
    A header is written only when the file did not exist, once, before the
    first row, and it lists the keys of the first record: later records get
    no header even if their keys differ. *)
Theorem trace_file_header_written_once :
  forall (first : StepDict) (rest : list StepDict) (lines : list TraceLine),
    write_trace None (first :: rest)
    = Some (Header (map fst first)
            :: map (fun d => Row (map snd d)) (first :: rest))
    /\ write_trace (Some lines) (first :: rest)
       = Some (lines ++ map (fun d => Row (map snd d)) (first :: rest))
    /\ write_trace None [] = None.
Proof.
  intros first rest lines. repeat split.
  - change (write_trace None (first :: rest))
      with (write_trace (Some (write_simtrace_to_local_file None first)) rest).
    rewrite write_trace_existing. reflexivity.
  - apply write_trace_existing.
Qed.

(** ** The evaluation samples *)

Section Samples.
Import TrainingMetrics TrainingFacts.



End Samples.

(** ** Pending records of the evaluation-side aggregator *)

Section EvalPending.
Import EvalMetrics.

Variable math_sqrt : Q -> Q.



End EvalPending.
